(** * WarThunderRPC: the telemetry-to-presence status engine

    A shallow embedding of [src/wtrpc.py] (the console monitor) and of the
    polling loop of [src/warthunder_rpc_gui.py] (the same loop inside
    [RPCMonitor.run]), followed by the properties of the engine.

    Conventions of the embedding:
    - a Python [str] is a [string]; the string methods below coincide with
      Python's on ASCII text (telemetry ids, map names and URLs are ASCII);
    - a Python [dict] is a [gmap] with string keys;
    - an exception is a value of [exn]; code that can raise returns a
      [result];
    - the module-level globals and the loop's [last_*] variables form the
      record [engine], threaded through [tick];
    - what a tick reads from outside (HTTP answers, the wiki scraper, the map
      image digest, the clock) is the record [world]; what it does to the
      outside (scrape, save the configuration, update the presence) is a list
      of [event]s; the presence sink and the configuration file accept
      whatever they are given. *)

From Stdlib Require Import ZArith Ascii String List Bool Lia.
From stdpp Require Import base option gmap strings list fin_maps.

Local Open Scope string_scope.
Local Open Scope Z_scope.

(** ** Python string methods *)

Module PyStr.

Definition code (c : ascii) : N := N_of_ascii c.

Definition isupper (c : ascii) : bool := ((65 <=? code c) && (code c <=? 90))%N.
Definition islower (c : ascii) : bool := ((97 <=? code c) && (code c <=? 122))%N.

Definition lower_char (c : ascii) : ascii :=
  if isupper c then ascii_of_N (code c + 32) else c.
Definition upper_char (c : ascii) : ascii :=
  if islower c then ascii_of_N (code c - 32) else c.

(** [str.isspace] on one character: TAB, LF, VT, FF, CR, FS, GS, RS, US and
    the space. *)
Definition isspace (c : ascii) : bool :=
  (((9 <=? code c) && (code c <=? 13)) || ((28 <=? code c) && (code c <=? 32)))%N.

(** [s.lower()] *)
Fixpoint lower (s : string) : string :=
  match s with
  | EmptyString => EmptyString
  | String c s' => String (lower_char c) (lower s')
  end.

(** [s.lstrip()], [s.rstrip()], [s.strip()] *)
Fixpoint lstrip (s : string) : string :=
  match s with
  | EmptyString => EmptyString
  | String c s' => if isspace c then lstrip s' else s
  end.

Fixpoint rstrip (s : string) : string :=
  match s with
  | EmptyString => EmptyString
  | String c s' =>
      match rstrip s' with
      | EmptyString => if isspace c then EmptyString else String c EmptyString
      | r => String c r
      end
  end.

Definition strip (s : string) : string := rstrip (lstrip s).

(** [s.startswith(p)] *)
Definition startswith (s p : string) : bool := String.prefix p s.

(** [sub in s] for two strings *)
Fixpoint contains (sub s : string) : bool :=
  String.prefix sub s ||
  match s with
  | EmptyString => false
  | String _ s' => contains sub s'
  end.

(** [s.split(sep)] for a one-character separator: never the empty list. *)
Fixpoint split (sep : ascii) (s : string) : list string :=
  match s with
  | EmptyString => [EmptyString]
  | String c s' =>
      if Ascii.eqb c sep then EmptyString :: split sep s'
      else match split sep s' with
           | h :: t => String c h :: t
           | [] => [String c EmptyString]
           end
  end.

(** [l[-1]] on the result of a split *)
Definition last_item (l : list string) : string := List.last l EmptyString.

(** [s.replace(old, new)] for a one-character [old] *)
Fixpoint replace (old : ascii) (new : string) (s : string) : string :=
  match s with
  | EmptyString => EmptyString
  | String c s' =>
      if Ascii.eqb c old then new +:+ replace old new s'
      else String c (replace old new s')
  end.

(** [s.title()]: the first letter of every run of letters in upper case, the
    rest of the run in lower case. *)
Fixpoint title_from (previous_is_cased : bool) (s : string) : string :=
  match s with
  | EmptyString => EmptyString
  | String c s' =>
      if islower c then
        String (if previous_is_cased then c else upper_char c) (title_from true s')
      else if isupper c then
        String (if previous_is_cased then lower_char c else c) (title_from true s')
      else String c (title_from false s')
  end.

Definition title (s : string) : string := title_from false s.

(** [s[:n]] *)
Definition take (n : nat) (s : string) : string := String.substring 0 n s.

(** [bool(s)] *)
Definition truthy (s : string) : bool :=
  match s with EmptyString => false | _ => true end.

(** The part of [s] before the first [c], and whether [c] occurs. *)
Fixpoint before (c : ascii) (s : string) : string :=
  match s with
  | EmptyString => EmptyString
  | String a s' => if Ascii.eqb a c then EmptyString else String a (before c s')
  end.

Fixpoint has_char (c : ascii) (s : string) : bool :=
  match s with
  | EmptyString => false
  | String a s' => Ascii.eqb a c || has_char c s'
  end.

End PyStr.

(** ** Library functions on URLs and paths

    [urllib.parse.urlparse(url).path], [os.path.basename] and
    [os.path.splitext] as the loop uses them: on a string that starts with
    "http://" or "https://", and with the POSIX flavour of [os.path]. The
    validation of the network location by [urlsplit] is not part of the
    model. *)

Module Url.
Import PyStr.

(** [urlsplit] first drops TAB, CR and LF from the whole string. *)
Fixpoint remove_unsafe (s : string) : string :=
  match s with
  | EmptyString => EmptyString
  | String c s' =>
      if ((code c =? 9) || (code c =? 10) || (code c =? 13))%N
      then remove_unsafe s' else String c (remove_unsafe s')
  end.

(** What follows the first [c] (empty when [c] does not occur). *)
Fixpoint after (c : ascii) (s : string) : string :=
  match s with
  | EmptyString => EmptyString
  | String a s' => if Ascii.eqb a c then s' else after c s'
  end.

(** The network location ends at the first of '/', '?' and '#'. *)
Fixpoint skip_netloc (s : string) : string :=
  match s with
  | EmptyString => EmptyString
  | String a s' =>
      if Ascii.eqb a "/" || Ascii.eqb a "?" || Ascii.eqb a "#" then s
      else skip_netloc s'
  end.

(** [_splitparams]: the path ends at the first ';' of its last segment. *)
Fixpoint cut_params (s : string) : string :=
  match s with
  | EmptyString => EmptyString
  | String a s' =>
      if has_char "/" s' then String a (cut_params s')
      else if Ascii.eqb a ";" then EmptyString
      else String a (cut_params s')
  end.

Definition url_path (url : string) : string :=
  let rest := after ":" (remove_unsafe url) in
  let rest := if startswith rest "//" then skip_netloc (String.substring 2 (String.length rest) rest) else rest in
  cut_params (before "?" (before "#" rest)).

(** [os.path.basename(p)] *)
Definition basename (p : string) : string := last_item (split "/" p).

(** [os.path.splitext(p)[0]] for a [p] without separator: the extension
    starts at the last dot, unless only dots precede it. *)
Fixpoint splitext_root_from (seen_other : bool) (p : string) : string :=
  match p with
  | EmptyString => EmptyString
  | String a p' =>
      if Ascii.eqb a "." then
        if has_char "." p' then String a (splitext_root_from seen_other p')
        else if seen_other then EmptyString else p
      else String a (splitext_root_from true p')
  end.

Definition splitext_root (p : string) : string := splitext_root_from false p.

End Url.

(** ** JSON values, dictionaries and exceptions *)

#[local] Set Warnings "-register-all".

(** A decoded JSON value. Of a number only its being zero is ever
    inspected. *)
Inductive json : Type :=
  | JNull
  | JBool (b : bool)
  | JNum (n : Z)
  | JStr (s : string)
  | JArr (items : list json)
  | JObj (members : list (string * json)).

Abbreviation dict := (gmap string json).

(** [bool(v)] *)
Definition truthy (v : json) : bool :=
  match v with
  | JNull => false
  | JBool b => b
  | JNum n => negb (n =? 0)
  | JStr s => PyStr.truthy s
  | JArr items => match items with [] => false | _ => true end
  | JObj members => match members with [] => false | _ => true end
  end.

(** [v == s] for a string [s] *)
Definition eq_str (v : json) (s : string) : bool :=
  match v with
  | JStr t => String.eqb t s
  | _ => false
  end.

(** [bool(d)] for an optional dictionary: [None] and [{}] are false. *)
Definition dict_truthy (d : option dict) : bool :=
  match d with
  | None => false
  | Some m => negb (Nat.eqb (size m) 0)
  end.

(** [d.get(k)]: Python's [None] is Rocq's [None]. *)
Definition dict_get (m : dict) (k : string) : option json := m !! k.

(** [bool(d.get(k, False))] *)
Definition get_truthy (m : dict) (k : string) : bool :=
  match m !! k with
  | Some v => truthy v
  | None => false
  end.

(** [bool(x)] for a value that may be [None] *)
Definition opt_truthy (v : option json) : bool :=
  match v with
  | Some v => truthy v
  | None => false
  end.

(** The exceptions the engine meets. *)
Inductive exn : Type :=
  | Timeout
  | ConnectionError
  | HTTPError
  | JSONDecodeError
  | OtherException
  | AttributeError
  | TypeError.

(** The classes named in the [except] clauses. *)
Inductive exn_class : Type :=
  | ClsTimeout
  | ClsConnectionError
  | ClsHTTPError
  | ClsJSONDecodeError
  | ClsException.

Definition isinstance (e : exn) (c : exn_class) : bool :=
  match c, e with
  | ClsException, _ => true
  | ClsTimeout, Timeout => true
  | ClsConnectionError, ConnectionError => true
  | ClsHTTPError, HTTPError => true
  | ClsJSONDecodeError, JSONDecodeError => true
  | _, _ => false
  end.

Inductive result (A : Type) : Type :=
  | Ok (a : A)
  | Raise (e : exn).
Arguments Ok {A} a.
Arguments Raise {A} e.

Definition bind {A B : Type} (m : result A) (f : A -> result B) : result B :=
  match m with
  | Ok a => f a
  | Raise e => Raise e
  end.

Notation "x <- m ;; k" := (bind m (fun x => k))
  (at level 100, m at next level, right associativity).

(** [try: body  except classes: handler] *)
Definition try_except {A} (body : result A) (classes : list exn_class)
    (handler : result A) : result A :=
  match body with
  | Ok a => Ok a
  | Raise e => if existsb (isinstance e) classes then handler else Raise e
  end.

(** [needle in v]: substring of a string, element of a list, key of an
    object; a [TypeError] on anything else. *)
Definition py_in (needle : string) (v : json) : result bool :=
  match v with
  | JStr s => Ok (PyStr.contains needle s)
  | JArr items => Ok (existsb (fun x => eq_str x needle) items)
  | JObj members => Ok (existsb (fun kv => String.eqb (fst kv) needle) members)
  | _ => Raise TypeError
  end.

(** [v.replace('_', ' ').title()]: only strings have [replace]. *)
Definition py_replace_title (v : json) : result string :=
  match v with
  | JStr s => Ok (PyStr.title (PyStr.replace "_" " " s))
  | _ => Raise AttributeError
  end.

(** ** The telemetry fetch *)

Definition WAR_THUNDER_API_URL : string := "http://127.0.0.1:8111".

Definition ENDPOINTS : gmap string string :=
  <["state" := WAR_THUNDER_API_URL +:+ "/state"]>
  (<["indicators" := WAR_THUNDER_API_URL +:+ "/indicators"]>
  (<["mission" := WAR_THUNDER_API_URL +:+ "/mission.json"]> ∅)).

(** What [response.json()] finds in the body: no JSON, or a document, which
    for these endpoints is an object or null (the [Optional[Dict]] of the
    signatures below). *)
Inductive decoded : Type :=
  | Undecodable
  | Decoded (v : option dict).

Record response : Type := {
  status_code : Z;
  body : decoded
}.

(** What [requests.get(url, timeout=1.5)] does: raise, or hand back a
    response. *)
Inductive reply : Type :=
  | Fails (e : exn)
  | Responds (r : response).

Definition requests_get (net : string -> reply) (url : string) : result response :=
  match net url with
  | Fails e => Raise e
  | Responds r => Ok r
  end.

(** [response.raise_for_status()]: an [HTTPError] for the 4xx and 5xx
    statuses. *)
Definition raise_for_status (r : response) : result unit :=
  if (400 <=? status_code r) && (status_code r <? 600) then Raise HTTPError
  else Ok tt.

Definition response_json (r : response) : result (option dict) :=
  match body r with
  | Undecodable => Raise JSONDecodeError
  | Decoded v => Ok v
  end.

Definition get_data (net : string -> reply) (endpoint_name : string)
    : result (option dict) :=
  match ENDPOINTS !! endpoint_name with
  | None => Ok None
  | Some url =>
      if negb (PyStr.truthy url) then Ok None
      else
        try_except
          (response <- requests_get net url;;
           _ <- raise_for_status response;;
           response_json response)
          [ClsTimeout; ClsConnectionError; ClsHTTPError; ClsJSONDecodeError; ClsException]
          (Ok None)
  end.

(** ** The status message *)

(** The truth value of [is_status_running or is_mission_enabled_or_valid],
    computed alike in [get_status_message] and in the loop. *)
Definition is_in_mission (mission_data : option dict) : bool :=
  match mission_data with
  | None => false
  | Some m =>
      dict_truthy mission_data &&
      (match m !! "status" with Some v => eq_str v "running" | None => false end
       || get_truthy m "is_enabled"
       || (get_truthy m "valid" &&
           match m !! "type" with Some v => negb (eq_str v "mission") | None => false end))
  end.

Definition get_status_message (state_data mission_data : option dict)
    (detected_vehicle map_name unfiltered_raw_id : string)
    : result (string * string) :=
  if negb (dict_truthy state_data) then Ok ("Offline", "Waiting for game...")
  else
    let vehicle_display :=
      if negb (String.eqb detected_vehicle "Unknown Vehicle") then detected_vehicle
      else "Vehicle" in
    if String.eqb map_name "Hangar" then
      if negb (String.eqb detected_vehicle "Unknown Vehicle")
      then Ok ("Idle in Hangar", "Inspecting " +:+ vehicle_display)
      else Ok ("In Main Menu/Hangar", "Waiting for vehicle selection")
    else if is_in_mission mission_data then
      mission_type_raw <-
        match mission_data with
        | Some m => Ok (dict_get m "type")
        | None => Raise AttributeError
        end;;
      let map_name_display := map_name in
      let mission_type_raw : json :=
        if negb (opt_truthy mission_type_raw)
           || match mission_type_raw with Some v => eq_str v "mission" | None => false end
        then
          if PyStr.truthy unfiltered_raw_id && PyStr.contains "tankmodels/" unfiltered_raw_id
          then JStr "ground_battle"
          else if PyStr.truthy unfiltered_raw_id &&
                  (PyStr.contains "shipmodels/" unfiltered_raw_id
                   || PyStr.contains "boat/" unfiltered_raw_id)
          then JStr "naval_battle"
          else if negb (String.eqb unfiltered_raw_id "unknown_vehicle")
          then JStr "air_battle"
          else JStr "Custom Battle"
        else match mission_type_raw with Some v => v | None => JNull end in
      let action_text :=
        if PyStr.contains "tankmodels/" unfiltered_raw_id
        then "Driving a " +:+ detected_vehicle
        else if PyStr.contains "shipmodels/" unfiltered_raw_id
                || PyStr.contains "boat/" unfiltered_raw_id
        then "Commanding the " +:+ detected_vehicle
        else "Piloting the " +:+ detected_vehicle in
      ground_battle <- py_in "ground_battle" mission_type_raw;;
      ground_match <- (if ground_battle then Ok true else py_in "ground_match" mission_type_raw);;
      if ground_match then Ok ("In Ground Battle on " +:+ map_name_display, action_text)
      else
        air_battle <- py_in "air_battle" mission_type_raw;;
        air_match <- (if air_battle then Ok true else py_in "air_match" mission_type_raw);;
        if air_match then Ok ("In Air Battle on " +:+ map_name_display, action_text)
        else
          naval_battle <- py_in "naval_battle" mission_type_raw;;
          if naval_battle then Ok ("In Naval Battle on " +:+ map_name_display, action_text)
          else
            custom_battle <- py_in "Custom Battle" mission_type_raw;;
            if custom_battle then Ok ("In Custom Battle on " +:+ map_name_display, action_text)
            else
              mission_type_display <- py_replace_title mission_type_raw;;
              Ok ("In Battle: " +:+ mission_type_display, "Map: " +:+ map_name_display)
    else if negb (String.eqb detected_vehicle "Unknown Vehicle")
    then Ok ("Idle in Hangar", "Inspecting " +:+ vehicle_display)
    else Ok ("In Main Menu/Hangar", "Waiting for vehicle selection").

(** ** The vehicle id *)

(** [bool(d and k in d)] and [d[k]] for an optional dictionary *)
Definition has_key (d : option dict) (k : string) : bool :=
  dict_truthy d &&
  match d with
  | Some m => bool_decide (is_Some (m !! k))
  | None => false
  end.

Definition item (d : option dict) (k : string) : option json :=
  match d with
  | Some m => m !! k
  | None => None
  end.

(** The [raw_id] that [get_raw_vehicle_id] picks: Python's [None] is Rocq's
    [None]. *)
Definition select_raw_id (state_data indicators_data : option dict) : option json :=
  let raw_id := None in
  if has_key state_data "name" then item state_data "name"
  else if has_key indicators_data "type" then item indicators_data "type"
  else raw_id.

Definition get_raw_vehicle_id (state_data indicators_data : option dict)
    : result (string * string) :=
  let raw_id := select_raw_id state_data indicators_data in
  if negb (opt_truthy raw_id)
     || match raw_id with
        | Some v => eq_str v "unknown_vehicle" || eq_str v "Unknown Vehicle"
        | None => false
        end
  then Ok ("unknown_vehicle", "unknown_vehicle")
  else
    match raw_id with
    | Some (JStr raw_id) =>
        let unfiltered_raw_id := PyStr.strip (PyStr.lower raw_id) in
        let canonical_id := unfiltered_raw_id in
        let canonical_id :=
          if PyStr.contains "/" canonical_id
          then PyStr.last_item (PyStr.split "/" canonical_id)
          else canonical_id in
        Ok (canonical_id, unfiltered_raw_id)
    | _ => Raise AttributeError
    end.

Definition get_wiki_url_from_id (vehicle_id : string) : string :=
  let BASE_WIKI_URL := "https://wiki.warthunder.com/unit/" in
  BASE_WIKI_URL +:+ vehicle_id.

Definition get_default_display_name (raw_id : string) : string :=
  if String.eqb raw_id "unknown_vehicle" then "Unknown Vehicle"
  else PyStr.strip (PyStr.title (PyStr.replace "_" " " raw_id)).

Definition is_url (s : string) : bool :=
  PyStr.startswith s "http://" || PyStr.startswith s "https://".

(** ** The engine: globals, loop variables, the outside *)

Definition VEHICLE_IMAGE_BASE_URL : string :=
  "https://static.encyclopedia.warthunder.com/images/".
Definition GITHUB_RAW_BASE_URL : string :=
  "https://raw.githubusercontent.com/ajaniceman/WarThunderRPC/main/mapPictures/".
Definition MAP_IMAGE_EXTENSION : string := ".jpg".

(** The digest of the menu and hangar background, written out in step 5 of
    the loop. *)
Definition HANGAR_MAP_HASH : string :=
  "cfb99c04947c94c19d4c523c1e0fb3a2d71d403263fefcad5f4c4fc8485d07d0".

(** The keyword arguments of [RPC.update]. The two small-image keys are
    there only when a small image was chosen. *)
Record payload : Type := {
  details : string;
  state : string;
  start : Z;
  large_image : string;
  large_text : string;
  small_image : option string;
  small_text : option string
}.

#[export] Instance payload_eq_dec : EqDecision payload.
Proof. solve_decision. Defined.

Inductive event : Type :=
  | Scrape (wiki_url : string)
  | SaveConfig (MAP_HASHES : gmap string string)
  | RpcUpdate (rpc_payload : payload).

(** The module globals, and the variables the loop keeps from one iteration
    to the next. [start_time] holds [int(start_time)], the only form in which
    the loop uses it. *)
Record engine : Type := {
  VEHICLE_NAME_CACHE : gmap string (string * string);
  LAST_VEHICLE_ID : option string;
  VEHICLE_DISPLAY_MAP : gmap string string;
  GLOBAL_MAP_HASHES : gmap string string;
  start_time : Z;
  last_details : string;
  last_state : string;
  last_vehicle_display : string;
  last_image_url : string;
  last_br : string;
  last_map_name : string
}.

(** What one iteration reads from outside: the answers of the local
    telemetry server, the result of [get_vehicle_name] for a wiki URL (the
    name and the rating, [(None, None)] when the page cannot be fetched), the
    result of [get_map_image_hash] (the SHA-256 digest of the map image in
    hexadecimal, [None] when there is none), and [int(time.time())]. *)
Record world : Type := {
  net : string -> reply;
  get_vehicle_name : string -> option string * option string;
  get_map_image_hash : option string;
  now : Z
}.

(** The two front ends differ in one assignment of step 8. *)
Inductive front_end : Type := Console | Gui.

(** [bool(s)] for an optional string *)
Definition opt_str_truthy (s : option string) : bool :=
  match s with
  | Some s => PyStr.truthy s
  | None => false
  end.

Definition lookup_map_name (MAP_HASHES : gmap string string)
    (sha256_hash : option string) : string :=
  match sha256_hash with
  | Some h =>
      if PyStr.truthy h then
        match MAP_HASHES !! h with
        | Some map_value =>
            if negb (String.eqb map_value "") then map_value
            else "Unknown Map (Needs Update)"
        | None => "Unknown Map (Hash: " +:+ PyStr.take 8 h +:+ "...)"
        end
      else "Not in Mission"
  | None => "Not in Mission"
  end.

(** Step 2 of the loop, up to the manual override: the name and the rating
    of the vehicle, the cache afterwards, and the lookups made. *)
Definition resolve_vehicle (scrape : string -> option string * option string)
    (CACHE : gmap string (string * string)) (LAST_ID : option string)
    (raw_vehicle_id : string)
    : string * string * gmap string (string * string) * list event :=
  let detected_vehicle := get_default_display_name raw_vehicle_id in
  let detected_br := "N/A" in
  if negb (String.eqb raw_vehicle_id "unknown_vehicle") then
    match CACHE !! raw_vehicle_id with
    | Some (cached_vehicle, cached_br) => (cached_vehicle, cached_br, CACHE, [])
    | None =>
        if negb (bool_decide (Some raw_vehicle_id = LAST_ID))
           || negb (bool_decide (is_Some (CACHE !! raw_vehicle_id)))
        then
          let wiki_url := get_wiki_url_from_id raw_vehicle_id in
          let '(scraped_name, scraped_br) := scrape wiki_url in
          if opt_str_truthy scraped_name then
            let detected_vehicle :=
              match scraped_name with
              | Some n => if PyStr.truthy n then n else detected_vehicle
              | None => detected_vehicle
              end in
            let detected_br :=
              match scraped_br with
              | Some b => if PyStr.truthy b then b else "N/A"
              | None => "N/A"
              end in
            (detected_vehicle, detected_br,
             <[raw_vehicle_id := (detected_vehicle, detected_br)]> CACHE,
             [Scrape wiki_url])
          else (detected_vehicle, "N/A", CACHE, [Scrape wiki_url])
        else (detected_vehicle, detected_br, CACHE, [])
    end
  else (detected_vehicle, detected_br, CACHE, []).

(** Step 3 of the loop: the map value, the hash table afterwards, and the
    configuration writes. *)
Definition detect_map (MAP_HASHES : gmap string string) (sha256_hash : option string)
    : string * gmap string string * list event :=
  let current_map_value := "Not in Mission" in
  match sha256_hash with
  | Some h =>
      if PyStr.truthy h then
        let current_map_value := lookup_map_name MAP_HASHES sha256_hash in
        if PyStr.truthy h && negb (bool_decide (is_Some (MAP_HASHES !! h))) then
          let placeholder_name := "unknown_map" in
          let clean_placeholder_name :=
            PyStr.replace " " "_" (PyStr.lower placeholder_name) in
          let auto_generated_url :=
            GITHUB_RAW_BASE_URL +:+ clean_placeholder_name +:+ MAP_IMAGE_EXTENSION in
          let MAP_HASHES := <[h := auto_generated_url]> MAP_HASHES in
          (auto_generated_url, MAP_HASHES, [SaveConfig MAP_HASHES])
        else (current_map_value, MAP_HASHES, [])
      else (current_map_value, MAP_HASHES, [])
  | None => (current_map_value, MAP_HASHES, [])
  end.

Definition in_list (s : string) (l : list string) : bool :=
  existsb (String.eqb s) l.

(** Step 5 of the loop: [(map_name_display, map_asset_key_or_url)]. *)
Definition map_display (current_map_value : string) (sha256_hash : option string)
    : string * string :=
  let map_asset_key_or_url := current_map_value in
  let map_name_display := current_map_value in
  if is_url current_map_value then
    let path := Url.url_path current_map_value in
    let filename_with_ext := Url.basename path in
    let filename := Url.splitext_root filename_with_ext in
    let map_name_display := PyStr.title (PyStr.replace "_" " " filename) in
    let map_name_display :=
      if String.eqb map_name_display "Unknown Map"
      then "Unknown Map (Upload Pending)" else map_name_display in
    (map_name_display, map_asset_key_or_url)
  else if in_list map_name_display
            ["Unknown Map (Needs Update)"; "Unknown Map (Just Added)"; "Not in Mission"]
  then
    let map_name_display :=
      if String.eqb map_name_display "Not in Mission"
         && opt_str_truthy sha256_hash
         && match sha256_hash with
            | Some h => PyStr.contains HANGAR_MAP_HASH h
            | None => false
            end
      then "Hangar" else map_name_display in
    (map_name_display, map_asset_key_or_url)
  else
    (PyStr.title (PyStr.replace "_" " " map_name_display),
     PyStr.replace ")" "" (PyStr.replace "(" ""
       (PyStr.replace "-" "_" (PyStr.replace " " "_" (PyStr.lower map_asset_key_or_url))))).

(** Step 8 of the loop:
    [(large_image_key, large_image_text, small_image_key, small_image_text)]. *)
Definition choose_images (fe : front_end) (in_mission : bool)
    (map_asset_key_or_url map_name_display current_image_url tooltip_text : string)
    : string * string * option string * option string :=
  let large_image_key := "war_thunder_logo" in
  let large_image_text := "War Thunder" in
  let '(large_image_key, large_image_text, small_image_key, small_image_text) :=
    if in_mission then
      let is_clean_asset_key :=
        negb (is_url map_asset_key_or_url)
        && negb (in_list map_asset_key_or_url
                   ["unknown_map_(needs_update)"; "unknown_map_(just_added)";
                    "unknown_map"; "not_in_mission"; "hangar"]) in
      let '(large_image_key, large_image_text) :=
        if is_url map_asset_key_or_url then
          (map_asset_key_or_url,
           if negb (in_list map_name_display ["Unknown Map (Upload Pending)"])
           then map_name_display else "Uploading Map Image")
        else if is_clean_asset_key then (map_asset_key_or_url, map_name_display)
        else ("war_thunder_logo",
              match fe with Console => "In Battle" | Gui => large_image_text end) in
      if PyStr.truthy current_image_url
      then (large_image_key, large_image_text, Some current_image_url, Some tooltip_text)
      else (large_image_key, large_image_text, None, None)
    else if PyStr.truthy current_image_url
    then (large_image_key, large_image_text, Some current_image_url, None)
    else (large_image_key, large_image_text, None, None) in
  let small_image_text :=
    if opt_str_truthy small_image_key && negb (opt_str_truthy small_image_text)
    then Some tooltip_text else small_image_text in
  (large_image_key, large_image_text, small_image_key, small_image_text).

(** The local variables of a finished iteration. *)
Record tick_locals : Type := {
  raw_vehicle_id : string;
  unfiltered_raw_id : string;
  detected_vehicle : string;
  detected_br : string;
  sha256_hash : option string;
  current_map_value : string;
  map_name_display : string;
  map_asset_key_or_url : string;
  in_mission : bool;
  rpc_payload : payload
}.

Inductive tick_outcome : Type :=
  | Completed (l : tick_locals)
  | Raised (e : exn).

Record tick_result : Type := {
  after : engine;
  events : list event;
  outcome : tick_outcome
}.

(** One iteration of [while True:] in [monitor_war_thunder] (of
    [while not self.stop_event.is_set():] in [RPCMonitor.run]). *)
Definition tick (fe : front_end) (w : world) (e : engine) : tick_result :=
  match
    state_data <- get_data (net w) "state";;
    indicators_data <- get_data (net w) "indicators";;
    mission_data <- get_data (net w) "mission";;
    ids <- get_raw_vehicle_id state_data indicators_data;;
    Ok (state_data, mission_data, ids)
  with
  | Raise x => {| after := e; events := []; outcome := Raised x |}
  | Ok (state_data, mission_data, (raw_vehicle_id, unfiltered_raw_id)) =>
      let '(detected_vehicle, detected_br, CACHE, scrapes) :=
        resolve_vehicle (get_vehicle_name w) (VEHICLE_NAME_CACHE e)
          (LAST_VEHICLE_ID e) raw_vehicle_id in
      let detected_vehicle :=
        match VEHICLE_DISPLAY_MAP e !! raw_vehicle_id with
        | Some display => display
        | None => detected_vehicle
        end in
      let sha256_hash := get_map_image_hash w in
      let '(current_map_value, MAP_HASHES, saves) :=
        detect_map (GLOBAL_MAP_HASHES e) sha256_hash in
      let in_mission := is_in_mission mission_data in
      let current_image_url :=
        if negb (String.eqb raw_vehicle_id "unknown_vehicle")
        then VEHICLE_IMAGE_BASE_URL +:+ raw_vehicle_id +:+ ".png" else "" in
      let '(map_name_display, map_asset_key_or_url) :=
        map_display current_map_value sha256_hash in
      let e1 := {|
        VEHICLE_NAME_CACHE := CACHE;
        LAST_VEHICLE_ID := Some raw_vehicle_id;
        VEHICLE_DISPLAY_MAP := VEHICLE_DISPLAY_MAP e;
        GLOBAL_MAP_HASHES := MAP_HASHES;
        start_time := start_time e;
        last_details := last_details e;
        last_state := last_state e;
        last_vehicle_display := last_vehicle_display e;
        last_image_url := last_image_url e;
        last_br := last_br e;
        last_map_name := last_map_name e |} in
      match get_status_message state_data mission_data detected_vehicle
              map_name_display unfiltered_raw_id with
      | Raise x => {| after := e1; events := (scrapes ++ saves)%list; outcome := Raised x |}
      | Ok (details, state) =>
          let br_tooltip :=
            if negb (String.eqb detected_br "N/A") then " BR: " +:+ detected_br else "" in
          let tooltip_text := detected_vehicle +:+ br_tooltip in
          let '(large_image_key, large_image_text, small_image_key, small_image_text) :=
            choose_images fe in_mission map_asset_key_or_url map_name_display
              current_image_url tooltip_text in
          let start_time :=
            if String.eqb map_name_display "Hangar" then now w else start_time e in
          let rpc_payload := {|
            details := details;
            state := state;
            start := start_time;
            large_image := large_image_key;
            large_text := large_image_text;
            small_image := if opt_str_truthy small_image_key then small_image_key else None;
            small_text := if opt_str_truthy small_image_key then small_image_text else None |} in
          let current_rpc_data_tuple :=
            (details, state, detected_vehicle, large_image_key, small_image_key,
             detected_br, map_name_display) in
          let last_rpc_data_tuple :=
            (last_details e, last_state e, last_vehicle_display e, last_image_url e,
             small_image_key, last_br e, last_map_name e) in
          let locals := {|
            raw_vehicle_id := raw_vehicle_id;
            unfiltered_raw_id := unfiltered_raw_id;
            detected_vehicle := detected_vehicle;
            detected_br := detected_br;
            sha256_hash := sha256_hash;
            current_map_value := current_map_value;
            map_name_display := map_name_display;
            map_asset_key_or_url := map_asset_key_or_url;
            in_mission := in_mission;
            rpc_payload := rpc_payload |} in
          if negb (bool_decide (current_rpc_data_tuple = last_rpc_data_tuple)) then
            {| after := {|
                 VEHICLE_NAME_CACHE := CACHE;
                 LAST_VEHICLE_ID := Some raw_vehicle_id;
                 VEHICLE_DISPLAY_MAP := VEHICLE_DISPLAY_MAP e;
                 GLOBAL_MAP_HASHES := MAP_HASHES;
                 start_time := start_time;
                 last_details := details;
                 last_state := state;
                 last_vehicle_display := detected_vehicle;
                 last_image_url := large_image_key;
                 last_br := detected_br;
                 last_map_name := map_name_display |};
               events := (scrapes ++ saves ++ [RpcUpdate rpc_payload])%list;
               outcome := Completed locals |}
          else
            {| after := {|
                 VEHICLE_NAME_CACHE := CACHE;
                 LAST_VEHICLE_ID := Some raw_vehicle_id;
                 VEHICLE_DISPLAY_MAP := VEHICLE_DISPLAY_MAP e;
                 GLOBAL_MAP_HASHES := MAP_HASHES;
                 start_time := start_time;
                 last_details := last_details e;
                 last_state := last_state e;
                 last_vehicle_display := last_vehicle_display e;
                 last_image_url := last_image_url e;
                 last_br := last_br e;
                 last_map_name := last_map_name e |};
               events := (scrapes ++ saves)%list;
               outcome := Completed locals |}
      end
  end.

(** The loop over the iterations that take place: it ends with the first
    exception, which both front ends catch outside the loop. *)
Fixpoint run (fe : front_end) (ws : list world) (e : engine)
    : engine * list event * option exn :=
  match ws with
  | [] => (e, [], None)
  | w :: ws' =>
      let r := tick fe w e in
      match outcome r with
      | Completed _ =>
          let '(e', evs, x) := run fe ws' (after r) in
          (e', (events r ++ evs)%list, x)
      | Raised x => (after r, events r, Some x)
      end
  end.

(** The state in which [monitor_war_thunder] enters the loop. *)
Definition initial_engine (MAP_HASHES : gmap string string) (started : Z) : engine := {|
  VEHICLE_NAME_CACHE := ∅;
  LAST_VEHICLE_ID := None;
  VEHICLE_DISPLAY_MAP := ∅;
  GLOBAL_MAP_HASHES := MAP_HASHES;
  start_time := started;
  last_details := "";
  last_state := "";
  last_vehicle_display := "";
  last_image_url := "";
  last_br := "";
  last_map_name := "" |}.

(** ** The wiki scraper *)

Module Scraper.

(** What [get_vehicle_name] reads off the parsed page: the text of the first
    [div.game-unit_name], the text of [h1#firstHeading], and for every
    [div.game-unit_br-item] the texts of its [div.mode] and [div.value];
    [None] stands for an element that is not there. The texts are those of
    [get_text(strip=True)]. *)
Record page : Type := {
  unit_name_div : option string;
  header : option string;
  br_items : list (option string * option string)
}.

(** What [requests.get(wiki_url, headers=HEADERS, timeout=5)] does: raise, or
    hand back a response with a status and a page. *)
Inductive wiki_reply : Type :=
  | Unreachable (e : exn)
  | Page (status : Z) (soup : page).

(** [isinstance(e, requests.exceptions.RequestException)] *)
Definition is_request_exception (e : exn) : bool :=
  match e with
  | Timeout | ConnectionError | HTTPError => true
  | _ => false
  end.

(** The loop over [br_items]: the value of the first item whose mode is 'RB'
    and which has a value. *)
Fixpoint find_rb (items : list (option string * option string)) : option string :=
  match items with
  | [] => None
  | (mode_div, value_div) :: items =>
      match mode_div, value_div with
      | Some mode, Some value => if String.eqb mode "RB" then Some value else find_rb items
      | _, _ => find_rb items
      end
  end.

(** [get_vehicle_name] of [src/scrape_vehicle_name.py] (and of the GUI front
    end), for a [wiki_url] that starts with "http://" or "https://". *)
Definition get_vehicle_name (fetch : string -> wiki_reply) (wiki_url : string)
    : result (option string * option string) :=
  match fetch wiki_url with
  | Unreachable e => if is_request_exception e then Ok (None, None) else Raise e
  | Page status soup =>
      if (400 <=? status) && (status <? 600) then Ok (None, None)
      else
        let display_name : option string := None in
        let display_name :=
          match unit_name_div soup with
          | Some text => Some text
          | None => display_name
          end in
        let display_name :=
          if negb (opt_str_truthy display_name) then
            match header soup with
            | Some text => Some text
            | None => display_name
            end
          else display_name in
        let display_name :=
          if negb (opt_str_truthy display_name) then
            let url_path := Url.url_path wiki_url in
            let raw_id := PyStr.last_item (PyStr.split "/" url_path) in
            Some (PyStr.strip (PyStr.title (PyStr.replace "_" " " raw_id)))
          else display_name in
        let rb_br := find_rb (br_items soup) in
        Ok (display_name, rb_br)
  end.

End Scraper.

(** ** The merge of the map tables *)

(** Step 3 of [load_config] in the GUI front end. [external_hashes] is
    [config_external["MAP_HASHES"]] when the manifest was fetched and has that
    key, [local_hashes] is [config_local.get("MAP_HASHES")]. *)
Definition merge_map_hashes (external_hashes local_hashes : option (gmap string string))
    : gmap string string :=
  let MAP_HASHES :=
    match external_hashes with
    | Some manifest => manifest
    | None => default ∅ local_hashes
    end in
  match local_hashes with
  | Some local =>
      if negb (Nat.eqb (size local) 0) then local ∪ MAP_HASHES else MAP_HASHES
  | None => MAP_HASHES
  end.

(** ** The vocabulary of the properties *)

(** No upper-case letter occurs in [s]. *)
Fixpoint no_upper (s : string) : bool :=
  match s with
  | EmptyString => true
  | String c s' => negb (PyStr.isupper c) && no_upper s'
  end.

(** The mission reports no type of its own (absent, empty or 'mission'), or
    reports a ground battle. *)
Definition generic_or_ground (mission_type : option json) : bool :=
  match mission_type with
  | None => true
  | Some v =>
      negb (truthy v) || eq_str v "mission" ||
      match v with
      | JStr s => PyStr.contains "ground_battle" s || PyStr.contains "ground_match" s
      | _ => false
      end
  end.

(** The placeholder reference of a fingerprint seen for the first time. *)
Definition placeholder_url : string :=
  "https://raw.githubusercontent.com/ajaniceman/WarThunderRPC/main/mapPictures/unknown_map.jpg".

(** The payloads sent to the presence sink, the lookups made and the
    configuration writes among a list of events. *)
Fixpoint updates (evs : list event) : list payload :=
  match evs with
  | [] => []
  | RpcUpdate p :: evs => p :: updates evs
  | _ :: evs => updates evs
  end.

Fixpoint lookups (evs : list event) : list string :=
  match evs with
  | [] => []
  | Scrape url :: evs => url :: lookups evs
  | _ :: evs => lookups evs
  end.

Fixpoint saves_of (evs : list event) : list (gmap string string) :=
  match evs with
  | [] => []
  | SaveConfig t :: evs => t :: saves_of evs
  | _ :: evs => saves_of evs
  end.

(** What the loop compares: the fields of the current iteration, and the
    values it remembered when it last updated the presence. *)
Definition compared (l : tick_locals)
    : string * string * string * string * string * string :=
  (details (rpc_payload l), state (rpc_payload l), detected_vehicle l,
   large_image (rpc_payload l), detected_br l, map_name_display l).

Definition remembered (e : engine)
    : string * string * string * string * string * string :=
  (last_details e, last_state e, last_vehicle_display e, last_image_url e,
   last_br e, last_map_name e).

(** A telemetry value that is a string, or that Python takes for false
    (absent, null, false, zero, empty). *)
Definition string_or_falsy (v : option json) : bool :=
  match v with
  | None => true
  | Some (JStr _) => true
  | Some v => negb (truthy v)
  end.

(** Every cached record belongs to a real id and has a name and a rating. *)
Definition cache_ok (CACHE : gmap string (string * string)) : Prop :=
  forall id name br, CACHE !! id = Some (name, br) ->
    id <> "unknown_vehicle" /\ name <> "" /\ br <> "".

(** An id that the URL of its wiki page passes through unchanged: no '/',
    '?', '#' or ';', no TAB, LF or CR. *)
Fixpoint plain_id (s : string) : bool :=
  match s with
  | EmptyString => true
  | String c s' =>
      negb (Ascii.eqb c "/" || Ascii.eqb c "?" || Ascii.eqb c "#" || Ascii.eqb c ";"
            || (PyStr.code c =? 9)%N || (PyStr.code c =? 10)%N || (PyStr.code c =? 13)%N)
      && plain_id s'
  end.

(** A string that [urlsplit] takes without complaint: ASCII text without a
    square bracket. ([urlsplit] raises [ValueError] for a network location
    with an unmatched bracket or with a bracketed host that is not an IP
    literal, and for a non-ASCII network location that normalises to a
    delimiter.) *)
Fixpoint isascii (s : string) : bool :=
  match s with
  | EmptyString => true
  | String c s' => (PyStr.code c <? 128)%N && isascii s'
  end.

Definition accepted_by_urlsplit (s : string) : bool :=
  isascii s && negb (PyStr.has_char "[" s) && negb (PyStr.has_char "]" s).

(** The mission type names one of the battles the status message knows. *)
Definition known_battle (t : string) : bool :=
  PyStr.contains "ground_battle" t || PyStr.contains "ground_match" t
  || PyStr.contains "air_battle" t || PyStr.contains "air_match" t
  || PyStr.contains "naval_battle" t || PyStr.contains "Custom Battle" t.

(** A page of the wiki without any of the markup the scraper looks for. *)
Definition bare_page : Scraper.page := {|
  Scraper.unit_name_div := None;
  Scraper.header := None;
  Scraper.br_items := [] |}.

(** ** Sample inputs *)

(** A telemetry server that answers 200 with the given documents. *)
Definition serve (state_data indicators_data mission_data : option dict)
    (url : string) : reply :=
  if String.eqb url "http://127.0.0.1:8111/state"
  then Responds {| status_code := 200; body := Decoded state_data |}
  else if String.eqb url "http://127.0.0.1:8111/indicators"
  then Responds {| status_code := 200; body := Decoded indicators_data |}
  else if String.eqb url "http://127.0.0.1:8111/mission.json"
  then Responds {| status_code := 200; body := Decoded mission_data |}
  else Fails ConnectionError.

Definition t34_state : dict := <["name" := JStr "tankmodels/T-34"]> ∅.

Definition running : dict := <["status" := JStr "running"]> ∅.

(** A game that shows a T-34 in a running mission, a wiki that cannot be
    reached, and no map image. *)
Definition tank_world : world := {|
  net := serve (Some t34_state) None (Some running);
  get_vehicle_name := fun _ => (None, None);
  get_map_image_hash := None;
  now := 0 |}.

(** A first run with an empty table, on a map whose image has the digest
    "5f2b"; the wiki knows the T-34. *)
Definition new_map_world : world := {|
  net := serve (Some t34_state) None (Some running);
  get_vehicle_name := fun _ => (Some "T-34", Some "4.0");
  get_map_image_hash := Some "5f2b";
  now := 0 |}.

Definition hangar_table : gmap string string :=
  <[HANGAR_MAP_HASH := "Not in Mission"]> ∅.

(** The game in the hangar with a T-34 selected, at clock [t]: the map image
    is the hangar background, there is no mission, the wiki cannot be
    reached. *)
Definition hangar_world (t : Z) : world := {|
  net := serve (Some t34_state) None None;
  get_vehicle_name := fun _ => (None, None);
  get_map_image_hash := Some HANGAR_MAP_HASH;
  now := t |}.

(** A table that knows the map of [new_map_world] by the URL of its
    picture. *)
Definition mozdok_table : gmap string string :=
  <["5f2b" :=
    "https://raw.githubusercontent.com/ajaniceman/WarThunderRPC/main/mapPictures/mozdok.jpg"]> ∅.

(** The T-34 in a running mission, with a wiki that answers with a page
    without markup: the scraper falls back on the name in the URL. *)
Definition bare_wiki_world : world := {|
  net := serve (Some t34_state) None (Some running);
  get_vehicle_name := fun _ => (Some "T-34", None);
  get_map_image_hash := None;
  now := 0 |}.

(** * Properties *)

(** ** Facts about the string methods *)

Section StringFacts.
Import PyStr.

Lemma lower_char_not_upper c : isupper (lower_char c) = false.
Proof. destruct c as [[] [] [] [] [] [] [] []]; reflexivity. Qed.

Lemma no_upper_lower s : no_upper (lower s) = true.
Proof.
  induction s as [|c s IH]; simpl; [reflexivity|].
  now rewrite lower_char_not_upper, IH.
Qed.

Lemma lower_no_upper s : no_upper s = true -> lower s = s.
Proof.
  induction s as [|c s IH]; simpl; [reflexivity|].
  intros [Hc Hs]%andb_true_iff. rewrite IH by exact Hs.
  unfold lower_char. now destruct (isupper c).
Qed.

Lemma no_upper_lstrip s : no_upper s = true -> no_upper (lstrip s) = true.
Proof.
  induction s as [|c s IH]; simpl; [reflexivity|].
  intros H. destruct (isspace c); [|exact H].
  apply IH. now apply andb_true_iff in H as [_ H].
Qed.

Lemma no_upper_rstrip s : no_upper s = true -> no_upper (rstrip s) = true.
Proof.
  induction s as [|c s IH]; simpl; [reflexivity|].
  intros [Hc Hs]%andb_true_iff. specialize (IH Hs).
  destruct (rstrip s) as [|d r].
  - destruct (isspace c); simpl; [reflexivity|]. now rewrite Hc.
  - simpl in *. now rewrite Hc, IH.
Qed.

Lemma no_upper_strip s : no_upper s = true -> no_upper (strip s) = true.
Proof. intros H. now apply no_upper_rstrip, no_upper_lstrip. Qed.

Lemma split_not_nil sep s : split sep s <> [].
Proof.
  destruct s as [|c s]; simpl; [discriminate|].
  destruct (Ascii.eqb c sep); [discriminate|].
  destruct (split sep s); discriminate.
Qed.

(** Every segment of a split is free of the separator and inherits the
    absence of upper-case letters. *)
Lemma split_segments sep s :
  Forall (fun x => has_char sep x = false /\ (no_upper s = true -> no_upper x = true))
         (split sep s).
Proof.
  induction s as [|c s IH]; simpl.
  - constructor; [split; reflexivity | constructor].
  - destruct (Ascii.eqb c sep) eqn:Hc.
    + constructor; [split; reflexivity|].
      eapply Forall_impl; [exact IH|]. simpl.
      intros x [Hx Hu]. split; [exact Hx|].
      intros [_ Hs]%andb_true_iff. now apply Hu.
    + destruct (split sep s) as [|h t] eqn:Hsp.
      * now destruct (split_not_nil sep s).
      * inversion IH as [|? ? [Hh Hu] Ht]; subst. constructor.
        -- split.
           ++ simpl. now rewrite Hc, Hh.
           ++ simpl. intros [Hcu Hs]%andb_true_iff. now rewrite Hcu, Hu.
        -- eapply Forall_impl; [exact Ht|]. simpl.
           intros x [Hx Hxu]. split; [exact Hx|].
           intros [_ Hs]%andb_true_iff. now apply Hxu.
Qed.

Lemma last_item_Forall (P : string -> Prop) l :
  l <> [] -> Forall P l -> P (last_item l).
Proof.
  unfold last_item. induction l as [|x l IH]; [congruence|].
  intros _ HF. inversion HF as [|? ? Hx Hl]; subst.
  destruct l as [|y l]; [exact Hx|].
  change (P (List.last (y :: l) EmptyString)). apply IH; [discriminate|exact Hl].
Qed.

Lemma last_segment_facts sep s :
  has_char sep (last_item (split sep s)) = false /\
  (no_upper s = true -> no_upper (last_item (split sep s)) = true).
Proof.
  apply (last_item_Forall
           (fun x => has_char sep x = false /\ (no_upper s = true -> no_upper x = true))).
  - apply split_not_nil.
  - apply split_segments.
Qed.

Lemma split_without_separator sep s : has_char sep s = false -> split sep s = [s].
Proof.
  induction s as [|c s IH]; simpl; [reflexivity|].
  intros [Hc Hs]%orb_false_iff. rewrite Hc, IH by exact Hs. reflexivity.
Qed.

Lemma contains_char c s : contains (String c EmptyString) s = has_char c s.
Proof.
  induction s as [|a s IH]; simpl; [reflexivity|].
  rewrite IH. f_equal.
  destruct (ascii_dec c a) as [->|Hne].
  - rewrite Ascii.eqb_refl. now destruct s.
  - replace (Ascii.eqb a c) with false
      by (symmetry; apply Ascii.eqb_neq; congruence).
    reflexivity.
Qed.

Lemma contains_truthy sub s : contains sub s = true -> PyStr.truthy sub = true -> PyStr.truthy s = true.
Proof. destruct s; [destruct sub; simpl; congruence|reflexivity]. Qed.

End StringFacts.

(** ** The telemetry fetch *)

Lemma handled_by_get_data e :
  existsb (isinstance e)
    [ClsTimeout; ClsConnectionError; ClsHTTPError; ClsJSONDecodeError; ClsException] = true.
Proof. destruct e; reflexivity. Qed.

(** [get_data] always returns. *)
Lemma get_data_returns net endpoint_name : exists v, get_data net endpoint_name = Ok v.
Proof.
  unfold get_data. destruct (ENDPOINTS !! endpoint_name) as [url|]; [|eauto].
  destruct (negb (PyStr.truthy url)); [eauto|].
  unfold try_except, requests_get. destruct (net url) as [e|r]; cbn [bind].
  - rewrite handled_by_get_data. eauto.
  - unfold raise_for_status.
    destruct ((400 <=? status_code r) && (status_code r <? 600)); cbn [bind].
    + rewrite handled_by_get_data. eauto.
    + unfold response_json. destruct (body r); cbn [bind].
      * rewrite handled_by_get_data. eauto.
      * eauto.
Qed.

(** C9, as stated, fails: a response whose status is neither 2xx nor an
    error status (here 300) and whose body is a JSON document is handed to
    the caller as data, not as [None]. *)
Lemma get_data_returns_body_of_a_300_response :
  let net := fun _ : string =>
    Responds {| status_code := 300; body := Decoded (Some t34_state) |} in
  (300 <? 200) || (299 <? 300) = true /\
  get_data net "state" = Ok (Some t34_state) /\
  Ok (Some t34_state) <> @Ok (option dict) None.
Proof. split; [reflexivity|]. split; [reflexivity|discriminate]. Qed.

(** C9 (amended): for every telemetry endpoint and every failure of the
    fetch (an exception of [requests.get] such as a timeout or a refused
    connection, a 4xx or 5xx status, a body that is not JSON), [get_data]
    returns [None]; and whatever the server does, it returns and does not
    raise. *)
Theorem get_data_absorbs_failures (net : string -> reply) (endpoint_name url : string) :
  ENDPOINTS !! endpoint_name = Some url ->
  (forall e, net url = Fails e -> get_data net endpoint_name = Ok None) /\
  (forall r, net url = Responds r -> 400 <= status_code r < 600 ->
             get_data net endpoint_name = Ok None) /\
  (forall r, net url = Responds r -> body r = Undecodable ->
             get_data net endpoint_name = Ok None) /\
  (exists v, get_data net endpoint_name = Ok v).
Proof.
  intros Hurl. repeat split; [| | |apply get_data_returns].
  - intros e He. unfold get_data. rewrite Hurl.
    destruct (negb (PyStr.truthy url)); [reflexivity|].
    unfold try_except, requests_get. rewrite He. cbn [bind].
    now rewrite handled_by_get_data.
  - intros r Hr [Hlo Hhi]. unfold get_data. rewrite Hurl.
    destruct (negb (PyStr.truthy url)); [reflexivity|].
    unfold try_except, requests_get, raise_for_status. rewrite Hr. cbn [bind].
    replace (400 <=? status_code r) with true by (symmetry; now apply Z.leb_le).
    replace (status_code r <? 600) with true by (symmetry; now apply Z.ltb_lt).
    cbn [andb bind]. now rewrite handled_by_get_data.
  - intros r Hr Hb. unfold get_data. rewrite Hurl.
    destruct (negb (PyStr.truthy url)); [reflexivity|].
    unfold try_except, requests_get, raise_for_status, response_json.
    rewrite Hr. cbn [bind].
    destruct ((400 <=? status_code r) && (status_code r <? 600)); cbn [bind];
      [|rewrite Hb]; now rewrite handled_by_get_data.
Qed.

Lemma get_data_absorbs_failures_witness :
  ENDPOINTS !! "mission" = Some "http://127.0.0.1:8111/mission.json" /\
  get_data (fun _ => Fails Timeout) "mission" = Ok None.
Proof.
  split; [reflexivity|].
  exact (proj1 (get_data_absorbs_failures (fun _ => Fails Timeout) "mission"
                  "http://127.0.0.1:8111/mission.json" eq_refl) Timeout eq_refl).
Defined.

(** ** The vehicle id *)

Lemma size_lookup_Some {V} (m : gmap string V) k v :
  m !! k = Some v -> Nat.eqb (size m) 0 = false.
Proof.
  intros H. apply Nat.eqb_neq. intros Hz.
  apply map_size_empty_iff in Hz. subst m. now rewrite lookup_empty in H.
Qed.

Lemma has_key_item d k : has_key d k = bool_decide (is_Some (item d k)).
Proof.
  unfold has_key, item, dict_truthy. destruct d as [m|]; simpl.
  - destruct (m !! k) as [v|] eqn:Hk.
    + rewrite (size_lookup_Some m k v Hk). reflexivity.
    + now rewrite andb_comm.
  - reflexivity.
Qed.

(** What [get_raw_vehicle_id] makes of the value it picked. *)
Lemma get_raw_vehicle_id_of_choice state_data indicators_data chosen :
  select_raw_id state_data indicators_data = chosen ->
  get_raw_vehicle_id state_data indicators_data =
    match chosen with
    | Some (JStr raw_id) =>
        if String.eqb raw_id "" || String.eqb raw_id "unknown_vehicle"
           || String.eqb raw_id "Unknown Vehicle"
        then Ok ("unknown_vehicle", "unknown_vehicle")
        else Ok (PyStr.last_item (PyStr.split "/" (PyStr.strip (PyStr.lower raw_id))),
                 PyStr.strip (PyStr.lower raw_id))
    | Some v => if truthy v then Raise AttributeError
                else Ok ("unknown_vehicle", "unknown_vehicle")
    | None => Ok ("unknown_vehicle", "unknown_vehicle")
    end.
Proof.
  intros Hsel. unfold get_raw_vehicle_id. rewrite Hsel.
  destruct chosen as [v|]; [|reflexivity].
  destruct v as [| b | n | raw_id | items | members]; cbn [opt_truthy eq_str orb];
    try (rewrite orb_false_r; now destruct (truthy _)).
  destruct raw_id as [|c raw_id]; [reflexivity|].
  cbn [truthy PyStr.truthy negb orb].
  change (String.eqb (String c raw_id) "") with false. cbn [orb].
  destruct (_ || _); [reflexivity|].
  set (u := PyStr.strip (PyStr.lower (String c raw_id))).
  change (PyStr.contains "/" u) with (PyStr.contains (String "/" EmptyString) u).
  rewrite contains_char.
  destruct (PyStr.has_char "/" u) eqn:Hc; [reflexivity|].
  now rewrite (split_without_separator _ _ Hc).
Qed.

(** C10: the ids that [get_raw_vehicle_id] returns are computed from the
    state's 'name' whenever the state data has that key, whatever the
    indicators report, and from the indicators' 'type' only when the state data
    is absent or has no 'name': a string that is not empty and not the sentinel
    gives its lower-cased, stripped form and the last segment of that; another
    value gives the sentinel when Python takes it for false and an
    [AttributeError] otherwise. In particular, when both endpoints report a
    vehicle, the ids are those of the state's 'name'. *)
Theorem state_name_takes_precedence (state_data indicators_data : option dict) :
  let chosen :=
    match item state_data "name" with
    | Some name => Some name
    | None => item indicators_data "type"
    end in
  select_raw_id state_data indicators_data = chosen /\
  get_raw_vehicle_id state_data indicators_data =
    match chosen with
    | Some (JStr raw_id) =>
        if String.eqb raw_id "" || String.eqb raw_id "unknown_vehicle"
           || String.eqb raw_id "Unknown Vehicle"
        then Ok ("unknown_vehicle", "unknown_vehicle")
        else Ok (PyStr.last_item (PyStr.split "/" (PyStr.strip (PyStr.lower raw_id))),
                 PyStr.strip (PyStr.lower raw_id))
    | Some v => if truthy v then Raise AttributeError
                else Ok ("unknown_vehicle", "unknown_vehicle")
    | None => Ok ("unknown_vehicle", "unknown_vehicle")
    end /\
  (forall (s i : dict) (name type : string),
     state_data = Some s -> indicators_data = Some i ->
     s !! "name" = Some (JStr name) -> i !! "type" = Some (JStr type) ->
     name <> "" -> name <> "unknown_vehicle" -> name <> "Unknown Vehicle" ->
     get_raw_vehicle_id state_data indicators_data =
       Ok (PyStr.last_item (PyStr.split "/" (PyStr.strip (PyStr.lower name))),
           PyStr.strip (PyStr.lower name))).
Proof.
  intros chosen.
  assert (Hsel : select_raw_id state_data indicators_data = chosen).
  { subst chosen. unfold select_raw_id. rewrite !has_key_item.
    destruct (item state_data "name") as [v|].
    + rewrite bool_decide_eq_true_2 by eauto. reflexivity.
    + rewrite bool_decide_eq_false_2 by (now intros [? ?]).
      destruct (item indicators_data "type") as [v|].
      * rewrite bool_decide_eq_true_2 by eauto. reflexivity.
      * rewrite bool_decide_eq_false_2 by (now intros [? ?]). reflexivity. }
  split; [exact Hsel|]. split; [now apply get_raw_vehicle_id_of_choice|].
  intros s i name type -> -> Hname Htype Hne Hs1 Hs2.
  rewrite (get_raw_vehicle_id_of_choice _ _ _ Hsel). subst chosen.
  cbn [item]. rewrite Hname.
  replace (String.eqb name "") with false by (symmetry; now apply String.eqb_neq).
  replace (String.eqb name "unknown_vehicle") with false
    by (symmetry; now apply String.eqb_neq).
  replace (String.eqb name "Unknown Vehicle") with false
    by (symmetry; now apply String.eqb_neq).
  reflexivity.
Qed.

Lemma state_name_takes_precedence_witness :
  get_raw_vehicle_id (Some (<["name" := JStr "tankmodels/T-34"]> ∅))
    (Some (<["type" := JStr "f3d_1"]> ∅))
  = Ok ("t-34", "tankmodels/t-34").
Proof.
  refine (proj2 (proj2 (state_name_takes_precedence
            (Some (<["name" := JStr "tankmodels/T-34"]> ∅))
            (Some (<["type" := JStr "f3d_1"]> ∅))))
          (<["name" := JStr "tankmodels/T-34"]> ∅) (<["type" := JStr "f3d_1"]> ∅)
          "tankmodels/T-34" "f3d_1" eq_refl eq_refl _ _ _ _ _);
    try reflexivity; discriminate.
Defined.

(** C8: for a raw id other than the sentinel, the unfiltered id is the raw
    id in lower case without surrounding whitespace, and the canonical id is
    the last '/'-delimited segment of the unfiltered id: it has no upper-case
    letter and no '/'. *)
Theorem canonical_id_is_last_segment (state_data indicators_data : option dict)
    (raw_id : string) :
  select_raw_id state_data indicators_data = Some (JStr raw_id) ->
  raw_id <> "" -> raw_id <> "unknown_vehicle" -> raw_id <> "Unknown Vehicle" ->
  let unfiltered_raw_id := PyStr.strip (PyStr.lower raw_id) in
  let canonical_id := PyStr.last_item (PyStr.split "/" unfiltered_raw_id) in
  get_raw_vehicle_id state_data indicators_data = Ok (canonical_id, unfiltered_raw_id) /\
  PyStr.lower canonical_id = canonical_id /\
  no_upper canonical_id = true /\
  PyStr.has_char "/" canonical_id = false.
Proof.
  intros Hsel Hne Hs1 Hs2 unfiltered_raw_id canonical_id.
  assert (Hu : no_upper unfiltered_raw_id = true)
    by apply no_upper_strip, no_upper_lower.
  destruct (last_segment_facts "/" unfiltered_raw_id) as [Hslash Hup].
  specialize (Hup Hu).
  split; [|split; [now apply lower_no_upper|split; assumption]].
  unfold get_raw_vehicle_id. rewrite Hsel. simpl.
  replace (PyStr.truthy raw_id) with true by (now destruct raw_id).
  replace (String.eqb raw_id "unknown_vehicle") with false
    by (symmetry; now apply String.eqb_neq).
  replace (String.eqb raw_id "Unknown Vehicle") with false
    by (symmetry; now apply String.eqb_neq).
  simpl. fold unfiltered_raw_id.
  change (PyStr.contains "/" unfiltered_raw_id)
    with (PyStr.contains (String "/" EmptyString) unfiltered_raw_id).
  rewrite contains_char.
  destruct (PyStr.has_char "/" unfiltered_raw_id) eqn:Hc; [reflexivity|].
  unfold canonical_id. now rewrite (split_without_separator _ _ Hc).
Qed.

Lemma canonical_id_is_last_segment_witness :
  get_raw_vehicle_id (Some t34_state) None = Ok ("t-34", "tankmodels/t-34") /\
  PyStr.lower "t-34" = "t-34" /\ no_upper "t-34" = true /\ PyStr.has_char "/" "t-34" = false.
Proof.
  apply (canonical_id_is_last_segment (Some t34_state) None "tankmodels/T-34");
    [reflexivity|discriminate|discriminate|discriminate].
Defined.

(** ** The status message *)

(** C7: without state data the message is "Offline" / "Waiting for
    game...", whatever the mission data, the vehicle and the map are. *)
Theorem offline_without_state (mission_data : option dict)
    (detected_vehicle map_name unfiltered_raw_id : string) :
  get_status_message None mission_data detected_vehicle map_name unfiltered_raw_id
  = Ok ("Offline", "Waiting for game...").
Proof. reflexivity. Qed.

(** With the map "Hangar" the message depends on the state data and on the
    vehicle alone, and no exception is raised. *)
Lemma get_status_message_hangar state_data mission_data detected_vehicle unfiltered_raw_id :
  get_status_message state_data mission_data detected_vehicle "Hangar" unfiltered_raw_id =
  Ok (if negb (dict_truthy state_data) then ("Offline", "Waiting for game...")
      else if negb (String.eqb detected_vehicle "Unknown Vehicle")
           then ("Idle in Hangar", "Inspecting " +:+ detected_vehicle)
           else ("In Main Menu/Hangar", "Waiting for vehicle selection")).
Proof.
  unfold get_status_message. destruct (negb (dict_truthy state_data)); [reflexivity|].
  simpl. now destruct (negb (String.eqb detected_vehicle "Unknown Vehicle")).
Qed.

Lemma running_is_in_mission (m : dict) :
  m !! "status" = Some (JStr "running") -> is_in_mission (Some m) = true.
Proof.
  intros H. unfold is_in_mission, dict_truthy.
  rewrite (size_lookup_Some m _ _ H), H. reflexivity.
Qed.

(** C6, as stated, fails: the mission's own type comes first. With state
    data, status 'running', a tank and the map "Abandoned Town", a mission of
    type 'air_battle' gives an air battle headline. *)
Lemma reported_mission_type_overrides_the_tank :
  let mission := <["type" := JStr "air_battle"]> running in
  dict_truthy (Some t34_state) = true /\
  String.eqb "Abandoned Town" "Hangar" = false /\
  mission !! "status" = Some (JStr "running") /\
  PyStr.contains "tankmodels/" "tankmodels/t-34" = true /\
  get_status_message (Some t34_state) (Some mission) "T-34" "Abandoned Town"
    "tankmodels/t-34"
  = Ok ("In Air Battle on Abandoned Town", "Driving a T-34") /\
  "In Air Battle on Abandoned Town" <> "In Ground Battle on Abandoned Town".
Proof. repeat split; try reflexivity. discriminate. Qed.

(** C6 (amended): with non-empty state data, the map "Abandoned Town", the
    mission status 'running', an unfiltered id containing "tankmodels/", the
    vehicle "T-34", and a mission type that is absent, empty, 'mission' or a
    ground battle, the headline is "In Ground Battle on Abandoned Town" and
    the subline "Driving a T-34". *)
Theorem ground_battle_scenario (state_data : option dict) (mission : dict)
    (unfiltered_raw_id : string) :
  dict_truthy state_data = true ->
  mission !! "status" = Some (JStr "running") ->
  PyStr.contains "tankmodels/" unfiltered_raw_id = true ->
  generic_or_ground (mission !! "type") = true ->
  get_status_message state_data (Some mission) "T-34" "Abandoned Town" unfiltered_raw_id
  = Ok ("In Ground Battle on Abandoned Town", "Driving a T-34").
Proof.
  intros Hstate Hrun Htank Htype.
  pose proof (contains_truthy _ _ Htank eq_refl) as Hid.
  unfold get_status_message, dict_get.
  rewrite Hstate, (running_is_in_mission _ Hrun), Htank, Hid.
  unfold generic_or_ground in Htype.
  destruct (mission !! "type") as [v|]; [|reflexivity].
  cbn [negb String.eqb Ascii.eqb Bool.eqb bind andb opt_truthy].
  destruct (negb (truthy v) || eq_str v "mission") eqn:Hgen.
  - reflexivity.
  - cbn [orb] in Htype. destruct v as [| | |s| |]; try discriminate Htype.
    cbn [py_in bind].
    destruct (PyStr.contains "ground_battle" s); [reflexivity|].
    cbn [orb] in Htype. cbn [py_in bind]. now rewrite Htype.
Qed.

Lemma ground_battle_scenario_witness :
  get_status_message (Some t34_state) (Some running) "T-34" "Abandoned Town"
    "tankmodels/t-34"
  = Ok ("In Ground Battle on Abandoned Town", "Driving a T-34").
Proof.
  apply ground_battle_scenario; reflexivity.
Defined.

(** ** The blocks of an iteration *)

Lemma updates_app evs1 evs2 : updates (evs1 ++ evs2)%list = (updates evs1 ++ updates evs2)%list.
Proof.
  induction evs1 as [|[] evs1 IH]; simpl; [reflexivity| | |]; now rewrite ?IH.
Qed.

Lemma lookups_app evs1 evs2 : lookups (evs1 ++ evs2)%list = (lookups evs1 ++ lookups evs2)%list.
Proof.
  induction evs1 as [|[] evs1 IH]; simpl; [reflexivity| | |]; now rewrite ?IH.
Qed.

Lemma saves_of_app evs1 evs2 :
  saves_of (evs1 ++ evs2)%list = (saves_of evs1 ++ saves_of evs2)%list.
Proof.
  induction evs1 as [|[] evs1 IH]; simpl; [reflexivity| | |]; now rewrite ?IH.
Qed.

Section Blocks.
Variable scrape : string -> option string * option string.
Variable CACHE : gmap string (string * string).
Variable LAST_ID : option string.

(** A cached id is answered from the cache, without a lookup. *)
Lemma resolve_vehicle_cached id name br :
  id <> "unknown_vehicle" -> CACHE !! id = Some (name, br) ->
  resolve_vehicle scrape CACHE LAST_ID id = (name, br, CACHE, []).
Proof.
  intros Hid Hc. unfold resolve_vehicle.
  replace (String.eqb id "unknown_vehicle") with false
    by (symmetry; now apply String.eqb_neq).
  now rewrite Hc.
Qed.

(** An id that is not cached is looked up, whatever the last id was. *)
Lemma resolve_vehicle_uncached id :
  id <> "unknown_vehicle" -> CACHE !! id = None ->
  resolve_vehicle scrape CACHE LAST_ID id =
    let wiki_url := get_wiki_url_from_id id in
    match scrape wiki_url with
    | (Some name, scraped_br) =>
        if PyStr.truthy name then
          let br := match scraped_br with
                    | Some b => if PyStr.truthy b then b else "N/A"
                    | None => "N/A"
                    end in
          (name, br, <[id := (name, br)]> CACHE, [Scrape wiki_url])
        else (get_default_display_name id, "N/A", CACHE, [Scrape wiki_url])
    | (None, _) => (get_default_display_name id, "N/A", CACHE, [Scrape wiki_url])
    end.
Proof.
  intros Hid Hc. unfold resolve_vehicle.
  replace (String.eqb id "unknown_vehicle") with false
    by (symmetry; now apply String.eqb_neq).
  rewrite Hc. cbn [negb].
  rewrite (bool_decide_eq_false_2 (is_Some None)) by (now intros [? ?]).
  rewrite orb_true_r. cbn zeta.
  destruct (scrape (get_wiki_url_from_id id)) as [[name|] scraped_br]; [|reflexivity].
  unfold opt_str_truthy. now destruct (PyStr.truthy name).
Qed.

(** The cache only grows; the only events are lookups of the id, and only
    when the id is not cached. *)
Lemma resolve_vehicle_effects id dv dbr CACHE' evs :
  resolve_vehicle scrape CACHE LAST_ID id = (dv, dbr, CACHE', evs) ->
  CACHE ⊆ CACHE' /\
  updates evs = [] /\ saves_of evs = [] /\
  (forall url, url ∈ lookups evs ->
     url = get_wiki_url_from_id id /\ CACHE !! id = None).
Proof.
  intros H.
  destruct (decide (id = "unknown_vehicle")) as [->|Hid].
  { unfold resolve_vehicle in H. simpl in H. inversion H; subst.
    do 3 (split; [reflexivity|]). simpl. intros url Hin. now apply elem_of_nil in Hin. }
  destruct (CACHE !! id) as [[name br]|] eqn:Hc.
  - rewrite (resolve_vehicle_cached _ _ _ Hid Hc) in H. inversion H; subst.
    do 3 (split; [reflexivity|]). simpl. intros url Hin. now apply elem_of_nil in Hin.
  - rewrite (resolve_vehicle_uncached _ Hid Hc) in H. cbn zeta in H.
    assert (Hev : forall url, url ∈ lookups [Scrape (get_wiki_url_from_id id)] ->
                    url = get_wiki_url_from_id id /\ @None (string * string) = None).
    { simpl. intros url Hin. apply list_elem_of_singleton in Hin. now subst. }
    destruct (scrape (get_wiki_url_from_id id)) as [[name|] scraped_br].
    + destruct (PyStr.truthy name); inversion H; subst;
        (split; [|split; [reflexivity|split; [reflexivity|exact Hev]]]);
        [now apply insert_subseteq|reflexivity].
    + inversion H; subst. split; [reflexivity|]. split; [reflexivity|].
      split; [reflexivity|exact Hev].
Qed.

End Blocks.

Section MapBlocks.
Variable MAP_HASHES : gmap string string.

(** A fingerprint that is not in the table is registered with the
    placeholder, and the configuration is saved. *)
Lemma detect_map_unknown h :
  h <> "" -> MAP_HASHES !! h = None ->
  detect_map MAP_HASHES (Some h) =
    (placeholder_url, <[h := placeholder_url]> MAP_HASHES,
     [SaveConfig (<[h := placeholder_url]> MAP_HASHES)]).
Proof.
  intros Hh Hn. unfold detect_map.
  replace (PyStr.truthy h) with true by (now destruct h).
  rewrite Hn. cbn [andb].
  rewrite (bool_decide_eq_false_2 (is_Some None)) by (now intros [? ?]).
  reflexivity.
Qed.

(** A fingerprint that is in the table is looked up; nothing is written. *)
Lemma detect_map_known h v :
  MAP_HASHES !! h = Some v ->
  detect_map MAP_HASHES (Some h) = (lookup_map_name MAP_HASHES (Some h), MAP_HASHES, []).
Proof.
  intros Hv. unfold detect_map, lookup_map_name.
  destruct (PyStr.truthy h); [|reflexivity].
  rewrite Hv. cbn [andb].
  rewrite (bool_decide_eq_true_2 (is_Some (Some v))) by eauto.
  reflexivity.
Qed.

Lemma detect_map_effects sha256_hash value MAP_HASHES' evs :
  detect_map MAP_HASHES sha256_hash = (value, MAP_HASHES', evs) ->
  updates evs = [] /\ lookups evs = [] /\
  (MAP_HASHES' = MAP_HASHES /\ evs = [] \/
   exists h, sha256_hash = Some h /\ h <> "" /\ MAP_HASHES !! h = None /\
             value = placeholder_url /\
             MAP_HASHES' = <[h := placeholder_url]> MAP_HASHES /\
             evs = [SaveConfig MAP_HASHES']).
Proof.
  intros H. destruct sha256_hash as [h|].
  - destruct (decide (h = "")) as [->|Hh].
    { inversion H; subst. repeat split; try reflexivity. now left. }
    destruct (MAP_HASHES !! h) as [v|] eqn:Hv.
    + rewrite (detect_map_known _ _ Hv) in H. inversion H; subst.
      repeat split; try reflexivity. now left.
    + rewrite (detect_map_unknown _ Hh Hv) in H. inversion H; subst.
      repeat split; try reflexivity. right. exists h. repeat split; assumption.
  - inversion H; subst. repeat split; try reflexivity. now left.
Qed.

End MapBlocks.

(** ** One iteration *)

Lemma same_small_image_key (a b c d f g a' b' c' d' f' g' : string) (k : option string) :
  bool_decide ((a, b, c, d, k, f, g) = (a', b', c', d', k, f', g')) =
  bool_decide ((a, b, c, d, f, g) = (a', b', c', d', f', g')).
Proof. apply bool_decide_ext. split; intros [= -> -> -> -> -> ->]; reflexivity. Qed.

(** Unfolds an iteration along its blocks. *)
Ltac tick_blocks w e :=
  unfold tick;
  let sd := fresh "state_data" in
  let ind := fresh "indicators_data" in
  let md := fresh "mission_data" in
  destruct (get_data_returns (net w) "state") as [sd ?Hstate];
  destruct (get_data_returns (net w) "indicators") as [ind ?Hindicators];
  destruct (get_data_returns (net w) "mission") as [md ?Hmission];
  rewrite Hstate, Hindicators, Hmission; cbn [bind];
  destruct (get_raw_vehicle_id sd ind) as [[?raw ?unfiltered]|?x] eqn:?Hids;
  cbn [bind];
  [ destruct (resolve_vehicle (get_vehicle_name w) (VEHICLE_NAME_CACHE e)
                (LAST_VEHICLE_ID e) _) as [[[?dv ?dbr] ?CACHE] ?scrapes] eqn:?Hresolve;
    destruct (detect_map (GLOBAL_MAP_HASHES e) (get_map_image_hash w))
      as [[?value ?HASHES] ?saves] eqn:?Hdetect;
    destruct (map_display _ (get_map_image_hash w)) as [?name ?key] eqn:?Hdisplay;
    destruct (get_status_message sd md _ _ _) as [[?details ?state]|?x] eqn:?Hmessage;
    [ destruct (choose_images _ _ _ _ _ _) as [[[?lkey ?ltext] ?skey] ?stext] eqn:?Himages;
      rewrite same_small_image_key
    | ]
  | ].

(** The anatomy of an iteration that runs to its end. *)
Lemma tick_completed fe w e l :
  outcome (tick fe w e) = Completed l ->
  exists state_data indicators_data mission_data name CACHE scrapes HASHES saves,
    get_data (net w) "state" = Ok state_data /\
    get_data (net w) "mission" = Ok mission_data /\
    get_raw_vehicle_id state_data indicators_data
      = Ok (raw_vehicle_id l, unfiltered_raw_id l) /\
    resolve_vehicle (get_vehicle_name w) (VEHICLE_NAME_CACHE e) (LAST_VEHICLE_ID e)
      (raw_vehicle_id l) = (name, detected_br l, CACHE, scrapes) /\
    detected_vehicle l =
      match VEHICLE_DISPLAY_MAP e !! raw_vehicle_id l with
      | Some display => display
      | None => name
      end /\
    sha256_hash l = get_map_image_hash w /\
    detect_map (GLOBAL_MAP_HASHES e) (get_map_image_hash w)
      = (current_map_value l, HASHES, saves) /\
    map_display (current_map_value l) (get_map_image_hash w)
      = (map_name_display l, map_asset_key_or_url l) /\
    get_status_message state_data mission_data (detected_vehicle l)
      (map_name_display l) (unfiltered_raw_id l)
      = Ok (details (rpc_payload l), state (rpc_payload l)) /\
    start (rpc_payload l) =
      (if String.eqb (map_name_display l) "Hangar" then now w else start_time e) /\
    events (tick fe w e) =
      (scrapes ++ saves ++
       (if bool_decide (compared l = remembered e) then [] else [RpcUpdate (rpc_payload l)]))%list /\
    remembered (after (tick fe w e)) =
      (if bool_decide (compared l = remembered e) then remembered e else compared l) /\
    VEHICLE_NAME_CACHE (after (tick fe w e)) = CACHE /\
    GLOBAL_MAP_HASHES (after (tick fe w e)) = HASHES /\
    start_time (after (tick fe w e)) = start (rpc_payload l).
Proof.
  tick_blocks w e; try discriminate.
  unfold compared, remembered.
  destruct (bool_decide _) eqn:Hgate; cbn [negb outcome]; intros [= <-]; cbn;
    rewrite Hgate;
    exists state_data, indicators_data, mission_data, dv, CACHE, scrapes, HASHES, saves;
    rewrite ?app_nil_r; repeat split; assumption || reflexivity.
Qed.

(** What every iteration, finished or not, does to the globals. *)
Lemma tick_effects fe w e :
  (after (tick fe w e) = e /\ events (tick fe w e) = []) \/
  exists raw name br scrapes value saves ups,
    resolve_vehicle (get_vehicle_name w) (VEHICLE_NAME_CACHE e) (LAST_VEHICLE_ID e) raw
      = (name, br, VEHICLE_NAME_CACHE (after (tick fe w e)), scrapes) /\
    detect_map (GLOBAL_MAP_HASHES e) (get_map_image_hash w)
      = (value, GLOBAL_MAP_HASHES (after (tick fe w e)), saves) /\
    VEHICLE_DISPLAY_MAP (after (tick fe w e)) = VEHICLE_DISPLAY_MAP e /\
    events (tick fe w e) = (scrapes ++ saves ++ ups)%list /\
    lookups ups = [] /\ saves_of ups = [].
Proof.
  tick_blocks w e.
  - right. destruct (negb (bool_decide _));
      cbn [after events VEHICLE_NAME_CACHE GLOBAL_MAP_HASHES VEHICLE_DISPLAY_MAP];
      exists raw, dv, dbr, scrapes, value, saves;
      [eexists [RpcUpdate _] | exists []];
      rewrite ?app_nil_r; repeat split; assumption || reflexivity.
  - right. exists raw, dv, dbr, scrapes, value, saves, [].
    cbn [after events VEHICLE_NAME_CACHE GLOBAL_MAP_HASHES VEHICLE_DISPLAY_MAP].
    rewrite ?app_nil_r. repeat split; assumption || reflexivity.
  - left. split; reflexivity.
Qed.

Lemma append_inj (p a b : string) : p +:+ a = p +:+ b -> a = b.
Proof. induction p as [|c p IH]; simpl; [trivial|]. intros [= H]. now apply IH. Qed.

Lemma get_wiki_url_from_id_inj id id' :
  get_wiki_url_from_id id = get_wiki_url_from_id id' -> id = id'.
Proof. unfold get_wiki_url_from_id. apply append_inj. Qed.

(** An iteration keeps every cache entry and the override table, and looks
    up only ids that are not cached. *)
Lemma tick_cache fe w e :
  VEHICLE_NAME_CACHE e ⊆ VEHICLE_NAME_CACHE (after (tick fe w e)) /\
  VEHICLE_DISPLAY_MAP (after (tick fe w e)) = VEHICLE_DISPLAY_MAP e /\
  (forall url, url ∈ lookups (events (tick fe w e)) ->
     exists id, url = get_wiki_url_from_id id /\ VEHICLE_NAME_CACHE e !! id = None).
Proof.
  destruct (tick_effects fe w e)
    as [[-> ->]|(raw & name & br & scrapes & value & saves & ups
                 & Hres & Hdet & Hdisp & -> & Hups & _)].
  - split; [reflexivity|]. split; [reflexivity|].
    simpl. intros url Hin. now apply elem_of_nil in Hin.
  - apply resolve_vehicle_effects in Hres as (Hsub & _ & _ & Hlook).
    apply detect_map_effects in Hdet as (_ & Hnone & _).
    split; [exact Hsub|]. split; [exact Hdisp|].
    intros url. rewrite !lookups_app, Hnone, Hups, app_nil_r.
    intros Hin. exists raw. now apply Hlook.
Qed.

(** The same over a run of iterations. *)
Lemma run_cache fe ws : forall e e' evs x,
  run fe ws e = (e', evs, x) ->
  VEHICLE_NAME_CACHE e ⊆ VEHICLE_NAME_CACHE e' /\
  VEHICLE_DISPLAY_MAP e' = VEHICLE_DISPLAY_MAP e /\
  (forall url, url ∈ lookups evs ->
     exists id, url = get_wiki_url_from_id id /\ VEHICLE_NAME_CACHE e !! id = None).
Proof.
  induction ws as [|w ws IH]; intros e e' evs x; simpl.
  - intros [= <- <- <-]. split; [reflexivity|]. split; [reflexivity|].
    simpl. intros url Hin. now apply elem_of_nil in Hin.
  - destruct (tick_cache fe w e) as (Hsub & Hdisp & Hlook).
    destruct (outcome (tick fe w e)).
    + destruct (run fe ws (after (tick fe w e))) as [[e1 evs1] x1] eqn:Hrun.
      intros [= <- <- <-].
      destruct (IH _ _ _ _ Hrun) as (Hsub1 & Hdisp1 & Hlook1).
      split; [now transitivity (VEHICLE_NAME_CACHE (after (tick fe w e)))|].
      split; [congruence|].
      intros url. rewrite lookups_app, elem_of_app. intros [Hin|Hin].
      * now apply Hlook.
      * destruct (Hlook1 url Hin) as (id & -> & Hid). exists id. split; [reflexivity|].
        eapply lookup_weaken_None; eassumption.
    + intros [= <- <- <-]. now repeat split.
Qed.

(** ** The vehicle cache *)

(** C4: once an id is in the cache, whatever iterations follow, the cache
    keeps all its entries, that of the id included, and no lookup of the id
    is made; an iteration that observes the id reads the cached record and
    makes no lookup at all. *)
Theorem cached_vehicle_is_not_looked_up_again (fe : front_end) (ws : list world)
    (w : world) (e e' : engine) (evs : list event) (x : option exn)
    (id name br : string) :
  id <> "unknown_vehicle" ->
  VEHICLE_NAME_CACHE e !! id = Some (name, br) ->
  run fe ws e = (e', evs, x) ->
  VEHICLE_NAME_CACHE e ⊆ VEHICLE_NAME_CACHE e' /\
  VEHICLE_NAME_CACHE e' !! id = Some (name, br) /\
  (get_wiki_url_from_id id ∉ lookups evs) /\
  (forall last, resolve_vehicle (get_vehicle_name w) (VEHICLE_NAME_CACHE e') last id
                = (name, br, VEHICLE_NAME_CACHE e', [])) /\
  (forall l, outcome (tick fe w e') = Completed l -> raw_vehicle_id l = id ->
     detected_br l = br /\
     detected_vehicle l = default name (VEHICLE_DISPLAY_MAP e !! id) /\
     lookups (events (tick fe w e')) = [] /\
     VEHICLE_NAME_CACHE (after (tick fe w e')) = VEHICLE_NAME_CACHE e').
Proof.
  intros Hid Hc Hrun.
  destruct (run_cache _ _ _ _ _ _ Hrun) as (Hsub & Hdisp & Hlook).
  assert (Hc' : VEHICLE_NAME_CACHE e' !! id = Some (name, br))
    by (eapply lookup_weaken; eassumption).
  split; [exact Hsub|]. split; [exact Hc'|]. split; [|split].
  - intros Hin. destruct (Hlook _ Hin) as (id' & Heq & Hnone).
    apply get_wiki_url_from_id_inj in Heq. subst id'. congruence.
  - intros last. now apply resolve_vehicle_cached.
  - intros l Hl Hraw.
    destruct (tick_completed _ _ _ _ Hl)
      as (sd & ind & md & name' & CACHE & scrapes & HASHES & saves
          & _ & _ & _ & Hres & Hdv & _ & Hdet & _ & _ & _ & Hev & _ & Hcache & _).
    rewrite Hraw, (resolve_vehicle_cached _ _ _ _ _ _ Hid Hc') in Hres.
    injection Hres as <- <- <- <-.
    apply detect_map_effects in Hdet as (_ & Hnone & _).
    rewrite Hraw, Hdisp in Hdv.
    split; [reflexivity|]. split; [now rewrite Hdv; destruct (VEHICLE_DISPLAY_MAP e !! id)|].
    split; [|now symmetry].
    rewrite Hev, !lookups_app, Hnone. simpl. now destruct (bool_decide _).
Qed.

Lemma cached_vehicle_is_not_looked_up_again_witness :
  let e := after (tick Console new_map_world (initial_engine ∅ 0)) in
  VEHICLE_NAME_CACHE e !! "t-34" = Some ("T-34", "4.0") /\
  (get_wiki_url_from_id "t-34"
     ∉ lookups (snd (fst (run Console [new_map_world; new_map_world] e)))).
Proof.
  intros e.
  assert (Hc : VEHICLE_NAME_CACHE e !! "t-34" = Some ("T-34", "4.0"))
    by (vm_compute; reflexivity).
  split; [exact Hc|].
  destruct (run Console [new_map_world; new_map_world] e) as [[e' evs] x] eqn:Hrun.
  refine (proj1 (proj2 (proj2 (cached_vehicle_is_not_looked_up_again Console
            [new_map_world; new_map_world] new_map_world e e' evs x
            "t-34" "T-34" "4.0" _ Hc Hrun)))).
  discriminate.
Defined.

(** C2, as stated, fails: the lookup of "t-34" fails on the first
    iteration, the second iteration observes the same id, with no other id in
    between, and looks it up again. *)
Lemma failed_lookup_is_repeated_on_the_next_tick :
  let r1 := tick Console tank_world (initial_engine ∅ 0) in
  let r2 := tick Console tank_world (after r1) in
  get_vehicle_name tank_world (get_wiki_url_from_id "t-34") = (None, None) /\
  lookups (events r1) = ["https://wiki.warthunder.com/unit/t-34"] /\
  LAST_VEHICLE_ID (after r1) = Some "t-34" /\
  (exists l2, outcome r2 = Completed l2 /\ raw_vehicle_id l2 = "t-34") /\
  lookups (events r2) = ["https://wiki.warthunder.com/unit/t-34"].
Proof.
  split; [reflexivity|]. split; [reflexivity|]. split; [reflexivity|].
  split; [|reflexivity]. eexists. split; reflexivity.
Qed.

(** C2 (amended): an iteration that observes an id other than the sentinel
    which is not in the cache looks it up, whatever the id of the iteration
    before was; when that lookup fails, the cache is left as it was, the
    rating is "N/A" and the name is the synthetic fallback name (or the manual
    override of the id). *)
Theorem uncached_vehicle_is_looked_up_on_every_tick (fe : front_end) (w : world)
    (e : engine) (l : tick_locals) :
  outcome (tick fe w e) = Completed l ->
  raw_vehicle_id l <> "unknown_vehicle" ->
  VEHICLE_NAME_CACHE e !! raw_vehicle_id l = None ->
  lookups (events (tick fe w e)) = [get_wiki_url_from_id (raw_vehicle_id l)] /\
  (opt_str_truthy (fst (get_vehicle_name w (get_wiki_url_from_id (raw_vehicle_id l))))
     = false ->
   VEHICLE_NAME_CACHE (after (tick fe w e)) = VEHICLE_NAME_CACHE e /\
   detected_br l = "N/A" /\
   detected_vehicle l =
     default (get_default_display_name (raw_vehicle_id l))
             (VEHICLE_DISPLAY_MAP e !! raw_vehicle_id l)).
Proof.
  intros Hl Hid Hc.
  destruct (tick_completed _ _ _ _ Hl)
    as (sd & ind & md & name & CACHE & scrapes & HASHES & saves
        & _ & _ & _ & Hres & Hdv & _ & Hdet & _ & _ & _ & Hev & _ & Hcache & _).
  rewrite (resolve_vehicle_uncached _ _ _ _ Hid Hc) in Hres. cbn zeta in Hres.
  apply detect_map_effects in Hdet as (_ & Hnone & _).
  assert (Hlook : lookups scrapes = [get_wiki_url_from_id (raw_vehicle_id l)]).
  { destruct (get_vehicle_name w _) as [[n|] b]; [destruct (PyStr.truthy n)|];
      injection Hres as _ _ _ <-; reflexivity. }
  split.
  - rewrite Hev, !lookups_app, Hnone, Hlook. simpl. now destruct (bool_decide _).
  - intros Hfail. rewrite Hcache, Hdv.
    destruct (get_vehicle_name w _) as [[n|] b]; simpl in Hfail;
      [rewrite Hfail in Hres|]; injection Hres as <- <- <- _;
      (split; [reflexivity|split; [reflexivity|]]);
      now destruct (VEHICLE_DISPLAY_MAP e !! raw_vehicle_id l).
Qed.

Lemma uncached_vehicle_is_looked_up_on_every_tick_witness :
  let e1 := after (tick Console tank_world (initial_engine ∅ 0)) in
  exists l, outcome (tick Console tank_world e1) = Completed l /\
    raw_vehicle_id l = "t-34" /\
    LAST_VEHICLE_ID e1 = Some "t-34" /\
    lookups (events (tick Console tank_world e1)) = [get_wiki_url_from_id "t-34"].
Proof.
  intros e1.
  assert (Hl : exists l, outcome (tick Console tank_world e1) = Completed l /\
                         raw_vehicle_id l = "t-34")
    by (vm_compute; eexists; split; reflexivity).
  destruct Hl as (l & Hl & Hraw). exists l.
  split; [exact Hl|]. split; [exact Hraw|]. split; [vm_compute; reflexivity|].
  rewrite <- Hraw.
  refine (proj1 (uncached_vehicle_is_looked_up_on_every_tick Console tank_world
                   e1 l Hl _ _)); rewrite Hraw.
  - discriminate.
  - vm_compute. reflexivity.
Defined.

(** ** The map table *)

(** An iteration that sees a fingerprint already in the table leaves the
    table alone and writes no configuration. *)
Lemma tick_table_known fe w e h v :
  get_map_image_hash w = Some h -> GLOBAL_MAP_HASHES e !! h = Some v ->
  GLOBAL_MAP_HASHES (after (tick fe w e)) = GLOBAL_MAP_HASHES e /\
  saves_of (events (tick fe w e)) = [].
Proof.
  intros Hh Hv.
  destruct (tick_effects fe w e)
    as [[-> ->]|(raw & name & br & scrapes & value & saves & ups
                 & Hres & Hdet & _ & -> & _ & Hups)].
  - split; reflexivity.
  - rewrite Hh, (detect_map_known _ _ _ Hv) in Hdet. injection Hdet as _ <- <-.
    apply resolve_vehicle_effects in Hres as (_ & _ & Hsaves & _).
    split; [reflexivity|]. now rewrite !saves_of_app, Hsaves, Hups.
Qed.

Lemma run_table_known fe ws h v : forall e e' evs x,
  Forall (fun w => get_map_image_hash w = Some h) ws ->
  GLOBAL_MAP_HASHES e !! h = Some v ->
  run fe ws e = (e', evs, x) ->
  GLOBAL_MAP_HASHES e' = GLOBAL_MAP_HASHES e /\ saves_of evs = [].
Proof.
  induction ws as [|w ws IH]; intros e e' evs x Hws Hv; simpl.
  - intros [= <- <- <-]. split; reflexivity.
  - inversion Hws as [|? ? Hw Hws']; subst.
    destruct (tick_table_known fe w e h v Hw Hv) as [Htable Hsaves].
    destruct (outcome (tick fe w e)).
    + destruct (run fe ws (after (tick fe w e))) as [[e1 evs1] x1] eqn:Hrun.
      intros [= <- <- <-].
      destruct (IH _ _ _ _ Hws' ltac:(now rewrite Htable) Hrun) as [Ht1 Hs1].
      split; [congruence|]. now rewrite saves_of_app, Hsaves, Hs1.
    + intros [= <- <- <-]. now split.
Qed.

(** C5: an iteration that sees a fingerprint missing from the table takes
    the placeholder reference for it and registers it, saving the
    configuration once. After any further iterations that see the same
    fingerprint the table is the old one with that one entry added, nothing
    more was saved, and another observation yields the same reference. *)
Theorem unknown_fingerprint_is_registered_once (fe : front_end) (w w' : world)
    (ws : list world) (e e' : engine) (l : tick_locals) (evs : list event)
    (x : option exn) (h : string) :
  h <> "" ->
  GLOBAL_MAP_HASHES e !! h = None ->
  get_map_image_hash w = Some h ->
  outcome (tick fe w e) = Completed l ->
  Forall (fun w => get_map_image_hash w = Some h) ws ->
  run fe ws (after (tick fe w e)) = (e', evs, x) ->
  get_map_image_hash w' = Some h ->
  current_map_value l = placeholder_url /\
  saves_of (events (tick fe w e)) = [<[h := placeholder_url]> (GLOBAL_MAP_HASHES e)] /\
  GLOBAL_MAP_HASHES e' = <[h := placeholder_url]> (GLOBAL_MAP_HASHES e) /\
  GLOBAL_MAP_HASHES e' !! h = Some placeholder_url /\
  size (GLOBAL_MAP_HASHES e') = S (size (GLOBAL_MAP_HASHES e)) /\
  saves_of evs = [] /\
  detect_map (GLOBAL_MAP_HASHES e') (Some h) = (placeholder_url, GLOBAL_MAP_HASHES e', []) /\
  (forall l', outcome (tick fe w' e') = Completed l' ->
     current_map_value l' = placeholder_url /\
     GLOBAL_MAP_HASHES (after (tick fe w' e')) = GLOBAL_MAP_HASHES e' /\
     saves_of (events (tick fe w' e')) = []).
Proof.
  intros Hh Hnone Hw Hl Hws Hrun Hw'.
  destruct (tick_completed _ _ _ _ Hl)
    as (sd & ind & md & name & CACHE & scrapes & HASHES & saves
        & _ & _ & _ & Hres & _ & _ & Hdet & _ & _ & _ & Hev & _ & _ & Htable & _).
  rewrite Hw, (detect_map_unknown _ _ Hh Hnone) in Hdet.
  injection Hdet as Hvalue <- <-.
  apply resolve_vehicle_effects in Hres as (_ & _ & Hsaves & _).
  assert (Hin : GLOBAL_MAP_HASHES (after (tick fe w e)) !! h = Some placeholder_url)
    by (rewrite Htable; apply lookup_insert_eq).
  destruct (run_table_known _ _ _ _ _ _ _ _ Hws Hin Hrun) as [He' Hevs].
  rewrite Htable in He'.
  assert (Hin' : GLOBAL_MAP_HASHES e' !! h = Some placeholder_url)
    by (rewrite He'; apply lookup_insert_eq).
  assert (Hsecond : detect_map (GLOBAL_MAP_HASHES e') (Some h)
                    = (placeholder_url, GLOBAL_MAP_HASHES e', [])).
  { rewrite (detect_map_known _ _ _ Hin'). unfold lookup_map_name.
    replace (PyStr.truthy h) with true by (now destruct h).
    now rewrite Hin'. }
  split; [now symmetry|]. split.
  { rewrite Hev, !saves_of_app, Hsaves. simpl. now destruct (bool_decide _). }
  split; [exact He'|]. split; [exact Hin'|]. split.
  { rewrite He'. now apply map_size_insert_None. }
  split; [exact Hevs|]. split; [exact Hsecond|].
  intros l' Hl'.
  destruct (tick_table_known fe w' e' h _ Hw' Hin') as [Ht Hs].
  split; [|split; assumption].
  destruct (tick_completed _ _ _ _ Hl')
    as (_ & _ & _ & _ & _ & _ & HASHES' & saves'
        & _ & _ & _ & _ & _ & _ & Hdet' & _).
  rewrite Hw', Hsecond in Hdet'. now injection Hdet' as <- _ _.
Qed.

Lemma unknown_fingerprint_is_registered_once_witness :
  let e := initial_engine ∅ 0 in
  let e' := fst (fst (run Console [new_map_world; new_map_world]
                        (after (tick Console new_map_world e)))) in
  GLOBAL_MAP_HASHES e' = <["5f2b" := placeholder_url]> ∅ /\
  size (GLOBAL_MAP_HASHES e') = 1%nat.
Proof.
  intros e e'.
  assert (Hl : exists l, outcome (tick Console new_map_world e) = Completed l)
    by (vm_compute; eexists; reflexivity).
  destruct Hl as [l Hl].
  destruct (run Console [new_map_world; new_map_world]
              (after (tick Console new_map_world e))) as [[e1 evs] x] eqn:Hrun.
  destruct (unknown_fingerprint_is_registered_once Console new_map_world new_map_world
              [new_map_world; new_map_world] e e1 l evs x "5f2b")
    as (_ & _ & Htable & _ & Hsize & _).
  - discriminate.
  - reflexivity.
  - reflexivity.
  - exact Hl.
  - repeat constructor.
  - exact Hrun.
  - reflexivity.
  - subst e'. simpl. split; [exact Htable|exact Hsize].
Defined.

(** ** The hangar *)

(** C3, as stated, fails: with a table that does not hold the hangar
    fingerprint, the fingerprint is registered like any unknown one, the map
    is named after the placeholder and the session start is not reset. *)
Lemma hangar_fingerprint_missing_from_the_table :
  let r := tick Console (hangar_world 500) (initial_engine ∅ 0) in
  get_map_image_hash (hangar_world 500) = Some HANGAR_MAP_HASH /\
  exists l, outcome r = Completed l /\
    current_map_value l = placeholder_url /\
    map_name_display l = "Unknown Map (Upload Pending)" /\
    map_name_display l <> "Hangar" /\
    start (rpc_payload l) = 0 /\
    start_time (after r) = 0.
Proof.
  split; [reflexivity|]. vm_compute. eexists. split; [reflexivity|].
  repeat split. discriminate.
Qed.

(** C3 (amended): when the fetched fingerprint is the hangar fingerprint and
    the table maps it to "Not in Mission", the map resolves to "Hangar", the
    session start is reset to the clock, and the message is the hangar one
    ("Offline" when there is no state data). *)
Theorem hangar_fingerprint_resolves_to_hangar (fe : front_end) (w : world) (e : engine)
    (l : tick_locals) :
  get_map_image_hash w = Some HANGAR_MAP_HASH ->
  GLOBAL_MAP_HASHES e !! HANGAR_MAP_HASH = Some "Not in Mission" ->
  outcome (tick fe w e) = Completed l ->
  map_name_display l = "Hangar" /\
  start (rpc_payload l) = now w /\
  start_time (after (tick fe w e)) = now w /\
  exists state_data, get_data (net w) "state" = Ok state_data /\
    (details (rpc_payload l), state (rpc_payload l)) =
      if negb (dict_truthy state_data) then ("Offline", "Waiting for game...")
      else if negb (String.eqb (detected_vehicle l) "Unknown Vehicle")
           then ("Idle in Hangar", "Inspecting " +:+ detected_vehicle l)
           else ("In Main Menu/Hangar", "Waiting for vehicle selection").
Proof.
  intros Hw Ht Hl.
  destruct (tick_completed _ _ _ _ Hl)
    as (sd & ind & md & name & CACHE & scrapes & HASHES & saves
        & Hsd & _ & _ & _ & _ & _ & Hdet & Hdisp & Hmsg & Hstart & _ & _ & _ & _ & Hst).
  rewrite Hw, (detect_map_known _ _ _ Ht) in Hdet.
  assert (Hvalue : current_map_value l = "Not in Mission").
  { injection Hdet as <- _ _. unfold lookup_map_name. now rewrite Ht. }
  rewrite Hw, Hvalue in Hdisp.
  assert (Hhangar : map_display "Not in Mission" (Some HANGAR_MAP_HASH)
                    = ("Hangar", "Not in Mission")) by (vm_compute; reflexivity).
  rewrite Hhangar in Hdisp.
  assert (Hname : map_name_display l = "Hangar") by congruence.
  rewrite Hname in Hstart, Hmsg. rewrite get_status_message_hangar in Hmsg.
  split; [exact Hname|]. split; [exact Hstart|]. split; [now rewrite Hst|].
  exists sd. split; [exact Hsd|]. now injection Hmsg as <-.
Qed.

Lemma hangar_fingerprint_resolves_to_hangar_witness :
  exists l, outcome (tick Console (hangar_world 100) (initial_engine hangar_table 0))
            = Completed l /\
    map_name_display l = "Hangar" /\ start (rpc_payload l) = 100.
Proof.
  assert (Hl : exists l,
             outcome (tick Console (hangar_world 100) (initial_engine hangar_table 0))
             = Completed l)
    by (vm_compute; eexists; reflexivity).
  destruct Hl as [l Hl]. exists l. split; [exact Hl|].
  destruct (hangar_fingerprint_resolves_to_hangar Console (hangar_world 100)
              (initial_engine hangar_table 0) l) as (Hname & Hstart & _).
  - reflexivity.
  - vm_compute. reflexivity.
  - exact Hl.
  - split; [exact Hname|exact Hstart].
Defined.

(** ** The change gate *)


(** How an iteration decides to publish: it does iff one of the six compared
    values differs from the remembered one. *)
Lemma publish_decision fe w e l :
  outcome (tick fe w e) = Completed l ->
  updates (events (tick fe w e)) =
    (if bool_decide (compared l = remembered e) then [] else [rpc_payload l]) /\
  remembered (after (tick fe w e)) =
    (if bool_decide (compared l = remembered e) then remembered e else compared l).
Proof.
  intros Hl.
  destruct (tick_completed _ _ _ _ Hl)
    as (sd & ind & md & name & CACHE & scrapes & HASHES & saves
        & _ & _ & _ & Hres & _ & _ & Hdet & _ & _ & _ & Hev & Hrem & _).
  apply resolve_vehicle_effects in Hres as (_ & Hu1 & _).
  apply detect_map_effects in Hdet as (Hu2 & _).
  split; [|exact Hrem].
  rewrite Hev, !updates_app, Hu1, Hu2. now destruct (bool_decide _).
Qed.



(** * Further properties of the engine *)

(** ** The status message, continued *)

(** Takes a status message apart along its tests. *)
Ltac message_cases H :=
  unfold get_status_message, bind, dict_get in H; cbv zeta in H;
  repeat (match type of H with
          | context [if ?b then _ else _] => destruct b eqn:?
          | context [match ?x with _ => _ end] => destruct x eqn:?
          end; cbn [py_in py_replace_title] in H; try discriminate H).

Lemma headline_not_empty state_data mission_data detected_vehicle map_name
    unfiltered_raw_id headline subline :
  get_status_message state_data mission_data detected_vehicle map_name unfiltered_raw_id
    = Ok (headline, subline) ->
  headline <> "" /\ subline <> "".
Proof.
  intros H. message_cases H; injection H as <- <-; split; discriminate.
Qed.

(** X1: the headline and the subline of a status message are never empty. *)
Theorem status_message_is_never_empty (state_data mission_data : option dict)
    (detected_vehicle map_name unfiltered_raw_id headline subline : string) :
  get_status_message state_data mission_data detected_vehicle map_name unfiltered_raw_id
    = Ok (headline, subline) ->
  headline <> "" /\ subline <> "".
Proof. apply headline_not_empty. Qed.

Lemma status_message_is_never_empty_witness :
  "In Ground Battle on Abandoned Town" <> "" /\ "Driving a T-34" <> "".
Proof.
  apply (status_message_is_never_empty (Some t34_state) (Some running) "T-34"
           "Abandoned Town" "tankmodels/t-34").
  reflexivity.
Defined.

(** With a mission type that is a string (or false for Python) the status
    message is computed without an exception. *)
Lemma get_status_message_returns state_data mission_data detected_vehicle map_name
    unfiltered_raw_id :
  string_or_falsy (item mission_data "type") = true ->
  exists r, get_status_message state_data mission_data detected_vehicle map_name
              unfiltered_raw_id = Ok r.
Proof.
  intros Htype.
  destruct (get_status_message state_data mission_data detected_vehicle map_name
              unfiltered_raw_id) as [r|x] eqn:H; [eauto|exfalso].
  message_cases H; destruct mission_data as [m|]; try discriminate;
    simpl in Htype;
    repeat match goal with
           | Hq : Ok _ = Ok _ |- _ => injection Hq as <-
           end;
    destruct (m !! "type") as [[| b | n | s | [|] | [|]]|]; simpl in *;
    try congruence; try (destruct b; discriminate); try (destruct (n =? 0); discriminate).
Qed.

(** X2: a mission whose 'type' is a number other than zero, or [true],
    makes the status message raise a [TypeError] as soon as the game is in a
    mission outside the hangar. *)
Theorem scalar_mission_type_raises (state_data : option dict) (mission : dict)
    (v : json) (detected_vehicle map_name unfiltered_raw_id : string) :
  dict_truthy state_data = true ->
  map_name <> "Hangar" ->
  is_in_mission (Some mission) = true ->
  mission !! "type" = Some v ->
  (v = JBool true \/ exists n, v = JNum n /\ n <> 0) ->
  get_status_message state_data (Some mission) detected_vehicle map_name unfiltered_raw_id
    = Raise TypeError.
Proof.
  intros Hstate Hmap Hin Htype Hv.
  unfold get_status_message, dict_get. rewrite Hstate, Hin, Htype.
  replace (String.eqb map_name "Hangar") with false
    by (symmetry; now apply String.eqb_neq).
  cbn [negb bind]. destruct Hv as [->|(n & -> & Hn)]; [reflexivity|].
  cbn [opt_truthy truthy eq_str].
  replace (n =? 0) with false by (symmetry; now apply Z.eqb_neq).
  reflexivity.
Qed.

Lemma scalar_mission_type_raises_witness :
  get_status_message (Some t34_state) (Some (<["type" := JNum 3]> running)) "T-34"
    "Abandoned Town" "tankmodels/t-34" = Raise TypeError.
Proof.
  apply (scalar_mission_type_raises (Some t34_state) (<["type" := JNum 3]> running)
           (JNum 3)).
  - reflexivity.
  - discriminate.
  - reflexivity.
  - reflexivity.
  - right. exists 3. split; [reflexivity|discriminate].
Defined.

(** ** The vehicle id, continued *)

Lemma get_raw_vehicle_id_returns state_data indicators_data :
  string_or_falsy (select_raw_id state_data indicators_data) = true ->
  exists r, get_raw_vehicle_id state_data indicators_data = Ok r.
Proof.
  unfold get_raw_vehicle_id, string_or_falsy.
  destruct (select_raw_id state_data indicators_data) as [v|]; [|eauto].
  destruct v; simpl; intros H; try rewrite negb_true_iff in H; try rewrite H;
    simpl; try rewrite H; simpl; eauto.
  destruct (negb (PyStr.truthy s) || _); eauto.
Qed.

Lemma get_raw_vehicle_id_raises state_data indicators_data v :
  select_raw_id state_data indicators_data = Some v ->
  truthy v = true -> (forall s, v <> JStr s) ->
  get_raw_vehicle_id state_data indicators_data = Raise AttributeError.
Proof.
  intros Hsel Hv Hstr. unfold get_raw_vehicle_id. rewrite Hsel. cbn [opt_truthy].
  rewrite Hv. destruct v; try reflexivity. now destruct (Hstr s).
Qed.

(** ** Iterations that raise, iterations that cannot *)

(** X3: a vehicle id that is neither a string nor false for Python (a
    number other than zero, [true], a list or an object with members) ends the
    loop at once with an [AttributeError]: nothing is looked up, saved or
    published, and no global changes. *)
Theorem malformed_vehicle_id_ends_the_loop (fe : front_end) (w : world) (ws : list world)
    (e : engine) (state_data indicators_data : option dict) (v : json) :
  get_data (net w) "state" = Ok state_data ->
  get_data (net w) "indicators" = Ok indicators_data ->
  select_raw_id state_data indicators_data = Some v ->
  truthy v = true -> (forall s, v <> JStr s) ->
  tick fe w e = {| after := e; events := []; outcome := Raised AttributeError |} /\
  run fe (w :: ws) e = (e, [], Some AttributeError).
Proof.
  intros Hs Hi Hsel Hv Hstr.
  assert (Htick : tick fe w e
                  = {| after := e; events := []; outcome := Raised AttributeError |}).
  { unfold tick. destruct (get_data_returns (net w) "mission") as [md Hm].
    rewrite Hs, Hi, Hm. cbn [bind].
    now rewrite (get_raw_vehicle_id_raises _ _ _ Hsel Hv Hstr). }
  split; [exact Htick|]. cbn [run]. now rewrite Htick.
Qed.

Lemma malformed_vehicle_id_ends_the_loop_witness :
  let w := {| net := serve (Some (<["name" := JNum 7]> ∅)) None None;
              get_vehicle_name := fun _ => (None, None);
              get_map_image_hash := None;
              now := 0 |} in
  run Console [w; tank_world] (initial_engine ∅ 0)
  = (initial_engine ∅ 0, [], Some AttributeError).
Proof.
  intros w.
  refine (proj2 (malformed_vehicle_id_ends_the_loop Console w [tank_world]
                   (initial_engine ∅ 0) (Some (<["name" := JNum 7]> ∅)) None (JNum 7)
                   _ _ _ _ _)).
  - reflexivity.
  - reflexivity.
  - vm_compute. reflexivity.
  - reflexivity.
  - discriminate.
Defined.

(** The map value of an iteration is a URL only when it is the placeholder
    or the table's value for the fingerprint. *)
Lemma detect_map_url MAP_HASHES sha256_hash value MAP_HASHES' evs :
  detect_map MAP_HASHES sha256_hash = (value, MAP_HASHES', evs) ->
  is_url value = true ->
  value = placeholder_url \/
  exists h, sha256_hash = Some h /\ MAP_HASHES !! h = Some value.
Proof.
  intros H Hurl. destruct sha256_hash as [h|];
    [|injection H as <- _ _; discriminate Hurl].
  destruct (decide (h = "")) as [->|Hh]; [injection H as <- _ _; discriminate Hurl|].
  destruct (MAP_HASHES !! h) as [v|] eqn:Hv.
  - rewrite (detect_map_known _ _ _ Hv) in H. injection H as <- _ _.
    unfold lookup_map_name in *. destruct (PyStr.truthy h); [|discriminate Hurl].
    rewrite Hv in *. destruct (negb (String.eqb v "")); [|discriminate Hurl].
    right. now exists h.
  - rewrite (detect_map_unknown _ _ Hh Hv) in H. injection H as <- _ _. now left.
Qed.

(** X4: when the vehicle id and the mission type that the telemetry reports
    are strings (or absent, or false for Python), and the table's value for
    the fingerprint of the map image, if it is a URL, is one that [urlsplit]
    accepts, the iteration runs to its end: no exception leaves it, and the
    map value that it hands to [urlparse] is one that [urlsplit] accepts. *)
Theorem well_typed_telemetry_completes (fe : front_end) (w : world) (e : engine)
    (state_data indicators_data mission_data : option dict) :
  get_data (net w) "state" = Ok state_data ->
  get_data (net w) "indicators" = Ok indicators_data ->
  get_data (net w) "mission" = Ok mission_data ->
  string_or_falsy (select_raw_id state_data indicators_data) = true ->
  string_or_falsy (item mission_data "type") = true ->
  (forall h v, get_map_image_hash w = Some h -> GLOBAL_MAP_HASHES e !! h = Some v ->
     is_url v = true -> accepted_by_urlsplit v = true) ->
  exists l, outcome (tick fe w e) = Completed l /\
    (is_url (current_map_value l) = true ->
     accepted_by_urlsplit (current_map_value l) = true).
Proof.
  intros Hs Hi Hm Hid Htype Htable.
  assert (Hl : exists l, outcome (tick fe w e) = Completed l).
  { unfold tick. rewrite Hs, Hi, Hm. cbn [bind].
    destruct (get_raw_vehicle_id_returns _ _ Hid) as [[raw unfiltered] ->]. cbn [bind].
    destruct (resolve_vehicle _ _ _ _) as [[[dv dbr] CACHE] scrapes].
    destruct (detect_map _ _) as [[value HASHES] saves].
    destruct (map_display _ _) as [name key].
    destruct (get_status_message_returns state_data mission_data
                (match VEHICLE_DISPLAY_MAP e !! raw with Some d => d | None => dv end)
                name unfiltered Htype) as [[details state] ->].
    destruct (choose_images _ _ _ _ _ _) as [[[lkey ltext] skey] stext].
    destruct (negb (bool_decide _)); cbn [outcome]; eauto. }
  destruct Hl as [l Hl]. exists l. split; [exact Hl|]. intros Hurl.
  destruct (tick_completed _ _ _ _ Hl)
    as (? & ? & ? & ? & ? & ? & HASHES & saves & _ & _ & _ & _ & _ & _ & Hdetect & _).
  destruct (detect_map_url _ _ _ _ _ Hdetect Hurl) as [->|(h & Hh & Hv)].
  - reflexivity.
  - exact (Htable h _ Hh Hv Hurl).
Qed.

Lemma well_typed_telemetry_completes_witness :
  exists l, outcome (tick Console new_map_world (initial_engine mozdok_table 0)) = Completed l /\
    (is_url (current_map_value l) = true ->
     accepted_by_urlsplit (current_map_value l) = true).
Proof.
  apply (well_typed_telemetry_completes Console new_map_world
           (initial_engine mozdok_table 0) (Some t34_state) None (Some running));
    try (vm_compute; reflexivity).
  intros h v [= <-] Hv _. vm_compute in Hv. injection Hv as <-. reflexivity.
Defined.



(** ** What an iteration presents *)

(** X6: as long as no headline is remembered, as when the loop starts,
    every iteration that runs to its end publishes its state. *)
Theorem first_iteration_publishes (fe : front_end) (w : world) (e : engine)
    (l : tick_locals) :
  last_details e = "" ->
  outcome (tick fe w e) = Completed l ->
  updates (events (tick fe w e)) = [rpc_payload l] /\
  remembered (after (tick fe w e)) = compared l.
Proof.
  intros Hlast Hl.
  destruct (publish_decision _ _ _ _ Hl) as [Hup Hrem].
  destruct (tick_completed _ _ _ _ Hl)
    as (sd & ind & md & name & CACHE & scrapes & HASHES & saves
        & _ & _ & _ & _ & _ & _ & _ & _ & Hmsg & _).
  apply headline_not_empty in Hmsg as [Hd _].
  assert (Hne : compared l <> remembered e).
  { unfold compared, remembered. rewrite Hlast. intros [= Heq]. now apply Hd. }
  now rewrite Hup, Hrem, bool_decide_eq_false_2.
Qed.

Lemma first_iteration_publishes_witness :
  exists l, outcome (tick Console tank_world (initial_engine ∅ 0)) = Completed l /\
    updates (events (tick Console tank_world (initial_engine ∅ 0))) = [rpc_payload l].
Proof.
  assert (Hl : exists l, outcome (tick Console tank_world (initial_engine ∅ 0))
                         = Completed l)
    by (vm_compute; eexists; reflexivity).
  destruct Hl as [l Hl]. exists l. split; [exact Hl|].
  exact (proj1 (first_iteration_publishes Console tank_world (initial_engine ∅ 0) l
                  eq_refl Hl)).
Defined.

(** The images of a finished iteration. *)
Lemma tick_images fe w e l :
  outcome (tick fe w e) = Completed l ->
  exists mission_data skey stext,
    get_data (net w) "mission" = Ok mission_data /\
    in_mission l = is_in_mission mission_data /\
    choose_images fe (in_mission l) (map_asset_key_or_url l) (map_name_display l)
      (if negb (String.eqb (raw_vehicle_id l) "unknown_vehicle")
       then VEHICLE_IMAGE_BASE_URL +:+ raw_vehicle_id l +:+ ".png" else "")
      (detected_vehicle l +:+
       (if negb (String.eqb (detected_br l) "N/A") then " BR: " +:+ detected_br l else ""))
    = (large_image (rpc_payload l), large_text (rpc_payload l), skey, stext) /\
    small_image (rpc_payload l) = (if opt_str_truthy skey then skey else None) /\
    small_text (rpc_payload l) = (if opt_str_truthy skey then stext else None).
Proof.
  tick_blocks w e; try discriminate.
  destruct (negb (bool_decide _)); cbn [outcome]; intros [= <-];
    cbn [in_mission map_asset_key_or_url map_name_display raw_vehicle_id
         detected_vehicle detected_br rpc_payload large_image large_text
         small_image small_text];
    exists mission_data, skey, stext; repeat split; assumption || reflexivity.
Qed.

(** The small image is the vehicle's, captioned with the tooltip, in a
    mission or not. *)
Lemma choose_images_small fe mission key name url tooltip lkey ltext skey stext :
  choose_images fe mission key name url tooltip = (lkey, ltext, skey, stext) ->
  skey = (if PyStr.truthy url then Some url else None) /\
  stext = (if PyStr.truthy url then Some tooltip else None).
Proof.
  unfold choose_images.
  destruct mission; [destruct (is_url key); [|destruct (_ && _)]|];
    destruct (PyStr.truthy url) eqn:Hurl; cbn [opt_str_truthy negb andb];
    rewrite ?Hurl; cbn [negb andb];
    try (destruct (PyStr.truthy tooltip)); intros [= <- <- <- <-]; split; reflexivity.
Qed.

(** Out of a mission the large image is the logo. *)
Lemma choose_images_idle fe key name url tooltip :
  exists skey stext,
    choose_images fe false key name url tooltip
    = ("war_thunder_logo", "War Thunder", skey, stext).
Proof.
  unfold choose_images. destruct (PyStr.truthy url) eqn:Hurl;
    cbn [opt_str_truthy negb andb]; rewrite ?Hurl; cbn [negb andb]; eauto.
Qed.

(** X7: in every state the small image of the payload is the public image
    of the canonical vehicle id, captioned with the vehicle name, followed by
    " BR: " and the rating unless the rating is "N/A"; with the unknown-vehicle
    sentinel there is no small image and no caption. *)
Theorem small_image_is_the_vehicle (fe : front_end) (w : world) (e : engine)
    (l : tick_locals) :
  outcome (tick fe w e) = Completed l ->
  small_image (rpc_payload l) =
    (if String.eqb (raw_vehicle_id l) "unknown_vehicle" then None
     else Some (VEHICLE_IMAGE_BASE_URL +:+ raw_vehicle_id l +:+ ".png")) /\
  small_text (rpc_payload l) =
    (if String.eqb (raw_vehicle_id l) "unknown_vehicle" then None
     else Some (detected_vehicle l +:+
                (if String.eqb (detected_br l) "N/A" then ""
                 else " BR: " +:+ detected_br l))).
Proof.
  intros Hl.
  destruct (tick_images _ _ _ _ Hl) as (md & skey & stext & _ & _ & Himg & -> & ->).
  apply choose_images_small in Himg as [-> ->].
  destruct (String.eqb (raw_vehicle_id l) "unknown_vehicle"); cbn [negb].
  - split; reflexivity.
  - destruct (String.eqb (detected_br l) "N/A"); split; reflexivity.
Qed.

Lemma small_image_is_the_vehicle_witness :
  exists l, outcome (tick Console new_map_world (initial_engine ∅ 0)) = Completed l /\
    small_image (rpc_payload l)
      = Some "https://static.encyclopedia.warthunder.com/images/t-34.png" /\
    small_text (rpc_payload l) = Some "T-34 BR: 4.0".
Proof.
  assert (Hl : exists l, outcome (tick Console new_map_world (initial_engine ∅ 0))
                         = Completed l /\
                 raw_vehicle_id l = "t-34" /\ detected_vehicle l = "T-34" /\
                 detected_br l = "4.0")
    by (vm_compute; eexists; repeat split; reflexivity).
  destruct Hl as (l & Hl & Hraw & Hdv & Hbr). exists l. split; [exact Hl|].
  destruct (small_image_is_the_vehicle Console new_map_world (initial_engine ∅ 0) l Hl)
    as [Hi Ht].
  rewrite Hraw in Hi. rewrite Hraw, Hdv, Hbr in Ht. split; [exact Hi|exact Ht].
Defined.

(** Out of a mission the status message is the idle one, whatever the map
    is, and no exception is raised. *)
Lemma get_status_message_idle state_data mission_data detected_vehicle map_name
    unfiltered_raw_id :
  is_in_mission mission_data = false ->
  get_status_message state_data mission_data detected_vehicle map_name unfiltered_raw_id =
  Ok (if negb (dict_truthy state_data) then ("Offline", "Waiting for game...")
      else if negb (String.eqb detected_vehicle "Unknown Vehicle")
           then ("Idle in Hangar", "Inspecting " +:+ detected_vehicle)
           else ("In Main Menu/Hangar", "Waiting for vehicle selection")).
Proof.
  intros Hout. unfold get_status_message. rewrite Hout.
  destruct (negb (dict_truthy state_data)); [reflexivity|].
  destruct (String.eqb map_name "Hangar");
    now destruct (negb (String.eqb detected_vehicle "Unknown Vehicle")).
Qed.

(** X8: an iteration out of a mission (no mission data, or none that
    counts as a running mission) presents the logo with the caption "War
    Thunder" and the idle message, which depends on the state data and the
    vehicle alone, not on the map. *)
Theorem idle_presentation (fe : front_end) (w : world) (e : engine) (l : tick_locals)
    (state_data : option dict) :
  outcome (tick fe w e) = Completed l ->
  get_data (net w) "state" = Ok state_data ->
  in_mission l = false ->
  large_image (rpc_payload l) = "war_thunder_logo" /\
  large_text (rpc_payload l) = "War Thunder" /\
  (details (rpc_payload l), state (rpc_payload l)) =
    (if negb (dict_truthy state_data) then ("Offline", "Waiting for game...")
     else if negb (String.eqb (detected_vehicle l) "Unknown Vehicle")
          then ("Idle in Hangar", "Inspecting " +:+ detected_vehicle l)
          else ("In Main Menu/Hangar", "Waiting for vehicle selection")).
Proof.
  intros Hl Hsd Hout.
  destruct (tick_images _ _ _ _ Hl) as (md & skey & stext & Hmd & Hin & Himg & _).
  destruct (tick_completed _ _ _ _ Hl)
    as (sd & ind & md' & name & CACHE & scrapes & HASHES & saves
        & Hsd' & Hmd' & _ & _ & _ & _ & _ & _ & Hmsg & _).
  assert (sd = state_data) by congruence. assert (md' = md) by congruence. subst sd md'.
  rewrite Hout in Himg.
  destruct (choose_images_idle fe (map_asset_key_or_url l) (map_name_display l)
              (if negb (String.eqb (raw_vehicle_id l) "unknown_vehicle")
               then VEHICLE_IMAGE_BASE_URL +:+ raw_vehicle_id l +:+ ".png" else "")
              (detected_vehicle l +:+
               (if negb (String.eqb (detected_br l) "N/A")
                then " BR: " +:+ detected_br l else "")))
    as (sk & st & Hidle).
  rewrite Hidle in Himg. injection Himg as Hk Ht _ _.
  rewrite get_status_message_idle in Hmsg by congruence.
  injection Hmsg as Hd.
  split; [now symmetry|]. split; [now symmetry|]. now symmetry.
Qed.

Lemma idle_presentation_witness :
  exists l, outcome (tick Gui (hangar_world 7) (initial_engine ∅ 0)) = Completed l /\
    large_image (rpc_payload l) = "war_thunder_logo" /\
    large_text (rpc_payload l) = "War Thunder".
Proof.
  assert (Hl : exists l, outcome (tick Gui (hangar_world 7) (initial_engine ∅ 0))
                         = Completed l /\ in_mission l = false)
    by (vm_compute; eexists; split; reflexivity).
  destruct Hl as (l & Hl & Hout). exists l. split; [exact Hl|].
  destruct (idle_presentation Gui (hangar_world 7) (initial_engine ∅ 0) l
              (Some t34_state) Hl eq_refl Hout) as (Hk & Ht & _).
  split; [exact Hk|exact Ht].
Defined.

Lemma map_display_placeholder sha256_hash :
  map_display placeholder_url sha256_hash
  = ("Unknown Map (Upload Pending)", placeholder_url).
Proof. reflexivity. Qed.

Lemma map_display_no_image :
  map_display "Not in Mission" None = ("Not in Mission", "Not in Mission").
Proof. reflexivity. Qed.

(** X9: in a mission, on the iteration that sees a fingerprint missing from
    the table, the large image is the placeholder reference just registered
    and its caption is "Uploading Map Image". *)
Theorem new_map_shows_the_placeholder (fe : front_end) (w : world) (e : engine)
    (l : tick_locals) (h : string) :
  outcome (tick fe w e) = Completed l ->
  get_map_image_hash w = Some h -> h <> "" ->
  GLOBAL_MAP_HASHES e !! h = None ->
  in_mission l = true ->
  map_name_display l = "Unknown Map (Upload Pending)" /\
  large_image (rpc_payload l) = placeholder_url /\
  large_text (rpc_payload l) = "Uploading Map Image".
Proof.
  intros Hl Hw Hh Hnone Hin.
  destruct (tick_images _ _ _ _ Hl) as (md & skey & stext & _ & _ & Himg & _).
  destruct (tick_completed _ _ _ _ Hl)
    as (sd & ind & md' & name & CACHE & scrapes & HASHES & saves
        & _ & _ & _ & _ & _ & _ & Hdet & Hdisp & _).
  rewrite Hw, (detect_map_unknown _ _ Hh Hnone) in Hdet.
  injection Hdet as Hvalue _ _. rewrite <- Hvalue, map_display_placeholder in Hdisp.
  injection Hdisp as Hname Hkey.
  rewrite Hin, <- Hname, <- Hkey in Himg. unfold choose_images in Himg.
  change (is_url placeholder_url) with true in Himg. cbv iota in Himg.
  change (negb (in_list "Unknown Map (Upload Pending)" ["Unknown Map (Upload Pending)"]))
    with false in Himg. cbv iota in Himg.
  split; [now symmetry|].
  destruct (PyStr.truthy _) in Himg; injection Himg as Hk Ht _ _; now split.
Qed.

Lemma new_map_shows_the_placeholder_witness :
  exists l, outcome (tick Console new_map_world (initial_engine ∅ 0)) = Completed l /\
    large_image (rpc_payload l) = placeholder_url /\
    large_text (rpc_payload l) = "Uploading Map Image".
Proof.
  assert (Hl : exists l, outcome (tick Console new_map_world (initial_engine ∅ 0))
                         = Completed l /\ in_mission l = true)
    by (vm_compute; eexists; split; reflexivity).
  destruct Hl as (l & Hl & Hin). exists l. split; [exact Hl|].
  refine (proj2 (new_map_shows_the_placeholder Console new_map_world
                   (initial_engine ∅ 0) l "5f2b" Hl eq_refl _ _ Hin)).
  - discriminate.
  - reflexivity.
Defined.

(** X10: in a mission without a map image, the large image key and its
    caption are both the string "Not in Mission": the diagnostic value is taken
    for an asset key, and the logo is not used. *)
Theorem mission_without_map_image (fe : front_end) (w : world) (e : engine)
    (l : tick_locals) :
  outcome (tick fe w e) = Completed l ->
  get_map_image_hash w = None ->
  in_mission l = true ->
  large_image (rpc_payload l) = "Not in Mission" /\
  large_text (rpc_payload l) = "Not in Mission".
Proof.
  intros Hl Hw Hin.
  destruct (tick_images _ _ _ _ Hl) as (md & skey & stext & _ & _ & Himg & _).
  destruct (tick_completed _ _ _ _ Hl)
    as (sd & ind & md' & name & CACHE & scrapes & HASHES & saves
        & _ & _ & _ & _ & _ & _ & Hdet & Hdisp & _).
  rewrite Hw in Hdet, Hdisp. injection Hdet as Hvalue _ _.
  rewrite <- Hvalue, map_display_no_image in Hdisp. injection Hdisp as Hname Hkey.
  rewrite Hin, <- Hname, <- Hkey in Himg. unfold choose_images in Himg.
  change (is_url "Not in Mission") with false in Himg. cbv iota in Himg.
  change (negb false && negb (in_list "Not in Mission"
            ["unknown_map_(needs_update)"; "unknown_map_(just_added)"; "unknown_map";
             "not_in_mission"; "hangar"])) with true in Himg. cbv iota in Himg.
  destruct (PyStr.truthy _) in Himg; injection Himg as Hk Ht _ _; now split.
Qed.

Lemma mission_without_map_image_witness :
  exists l, outcome (tick Console tank_world (initial_engine ∅ 0)) = Completed l /\
    large_image (rpc_payload l) = "Not in Mission" /\
    large_text (rpc_payload l) = "Not in Mission".
Proof.
  assert (Hl : exists l, outcome (tick Console tank_world (initial_engine ∅ 0))
                         = Completed l /\ in_mission l = true)
    by (vm_compute; eexists; split; reflexivity).
  destruct Hl as (l & Hl & Hin). exists l. split; [exact Hl|].
  exact (mission_without_map_image Console tank_world (initial_engine ∅ 0) l Hl
           eq_refl Hin).
Defined.

Lemma get_data_failed net endpoint_name url e :
  ENDPOINTS !! endpoint_name = Some url -> net url = Fails e ->
  get_data net endpoint_name = Ok None.
Proof.
  intros Hurl He. unfold get_data. rewrite Hurl.
  destruct (negb (PyStr.truthy url)); [reflexivity|].
  unfold try_except, requests_get. rewrite He. cbn [bind].
  now rewrite handled_by_get_data.
Qed.

(** X11: when the fetch of the state endpoint fails, an iteration that runs
    to its end presents "Offline" / "Waiting for game...", whatever the other
    endpoints, the map and the vehicle are. *)
Theorem failed_state_fetch_is_offline (fe : front_end) (w : world) (e : engine)
    (l : tick_locals) (err : exn) :
  net w "http://127.0.0.1:8111/state" = Fails err ->
  outcome (tick fe w e) = Completed l ->
  details (rpc_payload l) = "Offline" /\
  state (rpc_payload l) = "Waiting for game...".
Proof.
  intros Hfail Hl.
  destruct (tick_completed _ _ _ _ Hl)
    as (sd & ind & md & name & CACHE & scrapes & HASHES & saves
        & Hsd & _ & _ & _ & _ & _ & _ & _ & Hmsg & _).
  rewrite (get_data_failed (net w) "state" _ err eq_refl Hfail) in Hsd.
  injection Hsd as <-. cbn in Hmsg. injection Hmsg as <- <-. split; reflexivity.
Qed.

Lemma failed_state_fetch_is_offline_witness :
  let w := {| net := fun _ => Fails Timeout;
              get_vehicle_name := fun _ => (None, None);
              get_map_image_hash := None;
              now := 0 |} in
  exists l, outcome (tick Console w (initial_engine ∅ 0)) = Completed l /\
    details (rpc_payload l) = "Offline".
Proof.
  intros w.
  assert (Hl : exists l, outcome (tick Console w (initial_engine ∅ 0)) = Completed l)
    by (vm_compute; eexists; reflexivity).
  destruct Hl as [l Hl]. exists l. split; [exact Hl|].
  exact (proj1 (failed_state_fetch_is_offline Console w (initial_engine ∅ 0) l Timeout
                  eq_refl Hl)).
Defined.

(** ** The map table and the cache over a run *)

Lemma detect_map_grows MAP_HASHES sha256_hash value MAP_HASHES' evs :
  detect_map MAP_HASHES sha256_hash = (value, MAP_HASHES', evs) ->
  MAP_HASHES ⊆ MAP_HASHES'.
Proof.
  intros H. apply detect_map_effects in H as (_ & _ & [[-> _]|(h & _ & _ & Hn & _ & -> & _)]).
  - reflexivity.
  - now apply insert_subseteq.
Qed.

Lemma tick_table_grows fe w e :
  GLOBAL_MAP_HASHES e ⊆ GLOBAL_MAP_HASHES (after (tick fe w e)).
Proof.
  destruct (tick_effects fe w e)
    as [[-> _]|(raw & name & br & scrapes & value & saves & ups & _ & Hdet & _)].
  - reflexivity.
  - eapply detect_map_grows, Hdet.
Qed.

(** X12: over any run of iterations the map table only grows: every entry
    it had is still there with the same value, whether the run ends with an
    exception or not. *)
Theorem map_table_only_grows (fe : front_end) (ws : list world) (e : engine) :
  GLOBAL_MAP_HASHES e ⊆ GLOBAL_MAP_HASHES (fst (fst (run fe ws e))).
Proof.
  revert e. induction ws as [|w ws IH]; intros e; cbn [run].
  - reflexivity.
  - pose proof (tick_table_grows fe w e) as Hstep.
    destruct (outcome (tick fe w e)).
    + specialize (IH (after (tick fe w e))).
      destruct (run fe ws (after (tick fe w e))) as [[e' evs] x]. cbn [fst] in *.
      now transitivity (GLOBAL_MAP_HASHES (after (tick fe w e))).
    + exact Hstep.
Qed.

(** X13: after an iteration that saw a map fingerprint and ran to its end,
    the fingerprint is in the table. *)
Theorem observed_fingerprint_is_in_the_table (fe : front_end) (w : world) (e : engine)
    (l : tick_locals) (h : string) :
  outcome (tick fe w e) = Completed l ->
  get_map_image_hash w = Some h -> h <> "" ->
  is_Some (GLOBAL_MAP_HASHES (after (tick fe w e)) !! h).
Proof.
  intros Hl Hw Hh.
  destruct (tick_completed _ _ _ _ Hl)
    as (sd & ind & md & name & CACHE & scrapes & HASHES & saves
        & _ & _ & _ & _ & _ & _ & Hdet & _ & _ & _ & _ & _ & _ & -> & _).
  rewrite Hw in Hdet. destruct (GLOBAL_MAP_HASHES e !! h) as [v|] eqn:Hv.
  - rewrite (detect_map_known _ _ _ Hv) in Hdet. injection Hdet as _ <- _. eauto.
  - rewrite (detect_map_unknown _ _ Hh Hv) in Hdet. injection Hdet as _ <- _.
    rewrite lookup_insert_eq. eauto.
Qed.

Lemma observed_fingerprint_is_in_the_table_witness :
  is_Some (GLOBAL_MAP_HASHES (after (tick Console new_map_world (initial_engine ∅ 0)))
             !! "5f2b").
Proof.
  assert (Hl : exists l, outcome (tick Console new_map_world (initial_engine ∅ 0))
                         = Completed l)
    by (vm_compute; eexists; reflexivity).
  destruct Hl as [l Hl].
  refine (observed_fingerprint_is_in_the_table Console new_map_world
            (initial_engine ∅ 0) l "5f2b" Hl eq_refl _).
  discriminate.
Defined.

Lemma resolve_vehicle_cache_ok scrape CACHE LAST_ID id dv dbr CACHE' evs :
  cache_ok CACHE ->
  resolve_vehicle scrape CACHE LAST_ID id = (dv, dbr, CACHE', evs) ->
  cache_ok CACHE'.
Proof.
  intros Hok H.
  destruct (decide (id = "unknown_vehicle")) as [->|Hid].
  { unfold resolve_vehicle in H. simpl in H. now injection H as _ _ <- _. }
  destruct (CACHE !! id) as [[name br]|] eqn:Hc.
  - rewrite (resolve_vehicle_cached _ _ _ _ _ _ Hid Hc) in H. now injection H as _ _ <- _.
  - rewrite (resolve_vehicle_uncached _ _ _ _ Hid Hc) in H. cbn zeta in H.
    destruct (scrape (get_wiki_url_from_id id)) as [[n|] b];
      [destruct (PyStr.truthy n) eqn:Hn|]; injection H as _ _ <- _; try exact Hok.
    intros id' name' br'. rewrite lookup_insert. case_decide as Heq.
    + intros [= <- <-]. subst id'. split; [exact Hid|]. split.
      * now destruct n.
      * destruct b as [[|c b]|]; simpl; discriminate.
    + apply Hok.
Qed.

Lemma tick_cache_ok fe w e :
  cache_ok (VEHICLE_NAME_CACHE e) -> cache_ok (VEHICLE_NAME_CACHE (after (tick fe w e))).
Proof.
  intros Hok.
  destruct (tick_effects fe w e)
    as [[-> _]|(raw & name & br & scrapes & value & saves & ups & Hres & _)].
  - exact Hok.
  - eapply resolve_vehicle_cache_ok; eassumption.
Qed.

Lemma run_cache_ok fe ws : forall e,
  cache_ok (VEHICLE_NAME_CACHE e) ->
  cache_ok (VEHICLE_NAME_CACHE (fst (fst (run fe ws e)))).
Proof.
  induction ws as [|w ws IH]; intros e Hok; cbn [run].
  - exact Hok.
  - pose proof (tick_cache_ok fe w e Hok) as Hstep.
    destruct (outcome (tick fe w e)).
    + specialize (IH _ Hstep).
      now destruct (run fe ws (after (tick fe w e))) as [[e' evs] x].
    + exact Hstep.
Qed.

(** X14: whatever iterations the loop goes through from its start, the
    cache never holds the unknown-vehicle sentinel, and every cached record has
    a name and a rating that are not empty. *)
Theorem cache_holds_real_records (fe : front_end) (ws : list world)
    (MAP_HASHES : gmap string string) (started : Z) :
  cache_ok (VEHICLE_NAME_CACHE
              (fst (fst (run fe ws (initial_engine MAP_HASHES started))))).
Proof.
  apply run_cache_ok. intros id name br. cbn [initial_engine VEHICLE_NAME_CACHE].
  now rewrite lookup_empty.
Qed.

(** ** More facts about the string methods *)

Section MoreStringFacts.
Import PyStr.

Lemma lstrip_idem s : lstrip (lstrip s) = lstrip s.
Proof.
  induction s as [|c s IH]; simpl; [reflexivity|].
  destruct (isspace c) eqn:Hc; [exact IH|]. simpl. now rewrite Hc.
Qed.

Lemma rstrip_idem s : rstrip (rstrip s) = rstrip s.
Proof.
  induction s as [|c s IH]; simpl; [reflexivity|].
  destruct (rstrip s) as [|d r] eqn:Hr.
  - destruct (isspace c) eqn:Hc; simpl; [reflexivity|]. now rewrite Hc.
  - change (rstrip (String c (String d r))) with
      (match rstrip (String d r) with
       | EmptyString => if isspace c then EmptyString else String c EmptyString
       | r' => String c r'
       end).
    now rewrite IH.
Qed.

Lemma lstrip_rstrip s : lstrip s = s -> lstrip (rstrip s) = rstrip s.
Proof.
  destruct s as [|c s]; [reflexivity|]. simpl.
  destruct (isspace c) eqn:Hc.
  - intros H. exfalso.
    assert (Hlen : (String.length (lstrip s) <= String.length s)%nat).
    { clear. induction s as [|a s IH]; simpl; [lia|]. destruct (isspace a); simpl; lia. }
    rewrite H in Hlen. simpl in Hlen. lia.
  - intros _. destruct (rstrip s); simpl; now rewrite Hc.
Qed.

Lemma strip_idem s : strip (strip s) = strip s.
Proof.
  unfold strip. rewrite (lstrip_rstrip (lstrip s) (lstrip_idem s)). apply rstrip_idem.
Qed.

Lemma has_char_lstrip c s : has_char c s = false -> has_char c (lstrip s) = false.
Proof.
  induction s as [|a s IH]; simpl; [reflexivity|].
  intros [Ha Hs]%orb_false_iff. destruct (isspace a); [now apply IH|].
  simpl. now rewrite Ha, Hs.
Qed.

Lemma has_char_rstrip c s : has_char c s = false -> has_char c (rstrip s) = false.
Proof.
  induction s as [|a s IH]; simpl; [reflexivity|].
  intros [Ha Hs]%orb_false_iff. specialize (IH Hs).
  destruct (rstrip s) as [|d r].
  - destruct (isspace a); simpl; [reflexivity|]. now rewrite Ha.
  - simpl in *. now rewrite Ha, IH.
Qed.

Lemma has_char_strip c s : has_char c s = false -> has_char c (strip s) = false.
Proof. intros H. now apply has_char_rstrip, has_char_lstrip. Qed.

Lemma upper_char_is_upper a : islower a = true -> isupper (upper_char a) = true.
Proof. destruct a as [[] [] [] [] [] [] [] []]; vm_compute; congruence. Qed.

Lemma lower_char_is_lower a : isupper a = true -> islower (lower_char a) = true.
Proof. destruct a as [[] [] [] [] [] [] [] []]; vm_compute; congruence. Qed.

(** [title] moves no character that is not a letter. *)
Lemma has_char_title c b s :
  islower c = false -> isupper c = false ->
  has_char c (title_from b s) = has_char c s.
Proof.
  intros Hl Hu. revert b. induction s as [|a s IH]; intros b; simpl; [reflexivity|].
  assert (Hneq : forall x, (islower x = true \/ isupper x = true) -> Ascii.eqb x c = false).
  { intros x Hx. apply Ascii.eqb_neq. intros ->. destruct Hx; congruence. }
  destruct (islower a) eqn:Ha; [|destruct (isupper a) eqn:Ha'].
  - simpl. rewrite IH, (Hneq a) by auto.
    destruct b; [now rewrite (Hneq a) by auto|].
    now rewrite (Hneq (upper_char a)) by (right; now apply upper_char_is_upper).
  - simpl. rewrite IH, (Hneq a) by auto.
    destruct b; [|now rewrite (Hneq a) by auto].
    now rewrite (Hneq (lower_char a)) by (left; now apply lower_char_is_lower).
  - simpl. now rewrite IH.
Qed.

Lemma has_char_append c a b : has_char c (a +:+ b) = has_char c a || has_char c b.
Proof.
  induction a as [|x a IH]; simpl; [reflexivity|]. now rewrite IH, orb_assoc.
Qed.

(** A replaced character is gone, unless the replacement brings it back. *)
Lemma has_char_replace_same c new s :
  has_char c new = false -> has_char c (replace c new s) = false.
Proof.
  intros Hnew. induction s as [|a s IH]; simpl; [reflexivity|].
  destruct (Ascii.eqb a c) eqn:Ha.
  - now rewrite has_char_append, Hnew, IH.
  - simpl. now rewrite Ha, IH.
Qed.

Lemma has_char_replace_other d c new s :
  has_char d new = false -> has_char d s = false ->
  has_char d (replace c new s) = false.
Proof.
  intros Hnew. induction s as [|a s IH]; simpl; [reflexivity|].
  intros [Ha Hs]%orb_false_iff. destruct (Ascii.eqb a c).
  - now rewrite has_char_append, Hnew, IH.
  - simpl. now rewrite Ha, IH.
Qed.

Lemma no_upper_append a b : no_upper (a +:+ b) = no_upper a && no_upper b.
Proof.
  induction a as [|x a IH]; simpl; [reflexivity|]. now rewrite IH, andb_assoc.
Qed.

Lemma no_upper_replace c new s :
  no_upper new = true -> no_upper s = true -> no_upper (replace c new s) = true.
Proof.
  intros Hnew. induction s as [|a s IH]; simpl; [reflexivity|].
  intros [Ha Hs]%andb_true_iff. destruct (Ascii.eqb a c).
  - now rewrite no_upper_append, Hnew, IH.
  - simpl. now rewrite Ha, IH.
Qed.

End MoreStringFacts.

(** ** Names and keys *)

(** X15: the fallback display name of an id has no underscore and no
    whitespace at either end. *)
Theorem default_display_name_is_clean (raw_id : string) :
  PyStr.has_char "_" (get_default_display_name raw_id) = false /\
  PyStr.strip (get_default_display_name raw_id) = get_default_display_name raw_id.
Proof.
  unfold get_default_display_name.
  destruct (String.eqb raw_id "unknown_vehicle"); [split; reflexivity|].
  split; [|apply strip_idem].
  apply has_char_strip. unfold PyStr.title.
  rewrite has_char_title by reflexivity.
  now apply has_char_replace_same.
Qed.

(** X16: the asset key made of a map value that is neither a URL nor a
    diagnostic string has no upper-case letter, no space, no hyphen and no
    parenthesis. *)
Theorem asset_key_is_normalised (current_map_value : string) (sha256_hash : option string) :
  is_url current_map_value = false ->
  in_list current_map_value
    ["Unknown Map (Needs Update)"; "Unknown Map (Just Added)"; "Not in Mission"] = false ->
  let key := snd (map_display current_map_value sha256_hash) in
  no_upper key = true /\
  PyStr.has_char " " key = false /\ PyStr.has_char "-" key = false /\
  PyStr.has_char "(" key = false /\ PyStr.has_char ")" key = false.
Proof.
  intros Hurl Hdiag. unfold map_display. cbv zeta. rewrite Hurl, Hdiag. cbn [snd].
  split; [|split; [|split; [|split]]].
  - repeat apply no_upper_replace; try reflexivity. apply no_upper_lower.
  - do 3 (apply has_char_replace_other; [reflexivity|]).
    now apply has_char_replace_same.
  - do 2 (apply has_char_replace_other; [reflexivity|]).
    now apply has_char_replace_same.
  - apply has_char_replace_other; [reflexivity|].
    now apply has_char_replace_same.
  - now apply has_char_replace_same.
Qed.

Lemma asset_key_is_normalised_witness :
  let key := snd (map_display "Port Novorossiysk (Winter)" None) in
  key = "port_novorossiysk_winter" /\ no_upper key = true /\
  PyStr.has_char " " key = false.
Proof.
  intros key. split; [reflexivity|].
  destruct (asset_key_is_normalised "Port Novorossiysk (Winter)" None eq_refl eq_refl)
    as (Hu & Hs & _).
  split; [exact Hu|exact Hs].
Defined.

(** X17: the ids of a vehicle are a fixed point: when the unfiltered id
    that [get_raw_vehicle_id] returns is not empty and is reported again as the
    state's 'name', the same two ids come back. *)
Theorem vehicle_ids_are_stable (state_data indicators_data other : option dict)
    (s : dict) (canonical_id unfiltered_raw_id : string) :
  get_raw_vehicle_id state_data indicators_data = Ok (canonical_id, unfiltered_raw_id) ->
  unfiltered_raw_id <> "" ->
  get_raw_vehicle_id (Some (<["name" := JStr unfiltered_raw_id]> s)) other
  = Ok (canonical_id, unfiltered_raw_id).
Proof.
  intros H Hne.
  assert (Hsel : select_raw_id (Some (<["name" := JStr unfiltered_raw_id]> s)) other
                 = Some (JStr unfiltered_raw_id)).
  { unfold select_raw_id. rewrite !has_key_item. simpl. rewrite lookup_insert_eq.
    now rewrite bool_decide_eq_true_2 by eauto. }
  unfold get_raw_vehicle_id in *. rewrite Hsel. clear Hsel. cbn [opt_truthy truthy eq_str].
  replace (PyStr.truthy unfiltered_raw_id) with true by (now destruct unfiltered_raw_id).
  cbn [negb orb].
  destruct (negb (opt_truthy (select_raw_id state_data indicators_data)) || _).
  - injection H as <- <-. reflexivity.
  - destruct (select_raw_id state_data indicators_data) as [[| | |raw| |]|];
      try discriminate H.
    injection H as Hc Hu.
    assert (Hup : no_upper unfiltered_raw_id = true)
      by (rewrite <- Hu; apply no_upper_strip, no_upper_lower).
    assert (Hfix : PyStr.strip (PyStr.lower unfiltered_raw_id) = unfiltered_raw_id).
    { rewrite (lower_no_upper _ Hup), <- Hu. apply strip_idem. }
    rewrite Hu in Hc.
    destruct (String.eqb unfiltered_raw_id "unknown_vehicle") eqn:Hs1.
    + apply String.eqb_eq in Hs1. rewrite Hs1 in Hc. simpl in Hc.
      rewrite <- Hc, Hs1. reflexivity.
    + destruct (String.eqb unfiltered_raw_id "Unknown Vehicle") eqn:Hs2.
      * apply String.eqb_eq in Hs2. rewrite Hs2 in Hup. discriminate Hup.
      * cbn [orb]. rewrite Hfix, Hc. reflexivity.
Qed.

Lemma vehicle_ids_are_stable_witness :
  get_raw_vehicle_id (Some (<["name" := JStr "tankmodels/t-34"]> ∅)) None
  = Ok ("t-34", "tankmodels/t-34").
Proof.
  apply (vehicle_ids_are_stable (Some t34_state) None None ∅ "t-34" "tankmodels/t-34").
  - reflexivity.
  - discriminate.
Defined.

(** ** The wiki scraper *)

(** X18: the rating that the scraper returns is the value of the first
    item of the page whose mode is 'RB' and which has a value; there is no
    rating exactly when the page has no such item. *)
Theorem rating_is_the_first_rb_item (items : list (option string * option string)) :
  match Scraper.find_rb items with
  | Some value =>
      exists before after,
        items = (before ++ (Some "RB", Some value) :: after)%list /\
        Forall (fun item => forall v, item <> (Some "RB", Some v)) before
  | None => Forall (fun item => forall v, item <> (Some "RB", Some v)) items
  end.
Proof.
  induction items as [|[mode_div value_div] items IH]; simpl.
  - constructor.
  - assert (Hskip : (forall v, (mode_div, value_div) <> (Some "RB", Some v)) ->
                    match Scraper.find_rb items with
                    | Some value =>
                        exists before after,
                          (mode_div, value_div) :: items
                          = (before ++ (Some "RB", Some value) :: after)%list /\
                          Forall (fun item => forall v, item <> (Some "RB", Some v)) before
                    | None =>
                        Forall (fun item => forall v, item <> (Some "RB", Some v))
                          ((mode_div, value_div) :: items)
                    end).
    { intros Hne. destruct (Scraper.find_rb items) as [value|].
      - destruct IH as (before & after & -> & Hb).
        exists ((mode_div, value_div) :: before), after. split; [reflexivity|].
        now constructor.
      - now constructor. }
    destruct mode_div as [mode|]; [|apply Hskip; intros v; discriminate].
    destruct value_div as [value|]; [|apply Hskip; intros v; discriminate].
    destruct (String.eqb mode "RB") eqn:Hmode.
    + apply String.eqb_eq in Hmode. subst mode.
      exists [], items. split; [reflexivity|constructor].
    + apply Hskip. intros v [= -> _]. discriminate Hmode.
Qed.

Section WikiUrl.
Import PyStr.

Lemma plain_id_facts id :
  plain_id id = true ->
  Url.remove_unsafe id = id /\ has_char "/" id = false /\ has_char "?" id = false /\
  has_char "#" id = false /\ has_char ";" id = false.
Proof.
  induction id as [|c id IH]; simpl; [now repeat split|].
  intros [Hc Hid]%andb_true_iff. destruct (IH Hid) as (H1 & H2 & H3 & H4 & H5).
  apply negb_true_iff in Hc.
  repeat (apply orb_false_iff in Hc as [Hc ?]).
  repeat match goal with
         | H : (code c =? _)%N = false |- _ => rewrite H
         | H : Ascii.eqb c _ = false |- _ => rewrite H
         end.
  simpl. rewrite H1, H2, H3, H4, H5. now repeat split.
Qed.

Lemma before_absent c s : has_char c s = false -> before c s = s.
Proof.
  induction s as [|a s IH]; simpl; [reflexivity|].
  intros [Ha Hs]%orb_false_iff. now rewrite Ha, IH.
Qed.

Lemma cut_params_absent s : has_char ";" s = false -> Url.cut_params s = s.
Proof.
  induction s as [|a s IH]; simpl; [reflexivity|].
  intros [Ha Hs]%orb_false_iff. rewrite Ha, IH by exact Hs. now destruct (has_char "/" s).
Qed.

Lemma substring_all s n : (String.length s <= n)%nat -> String.substring 0 n s = s.
Proof.
  revert n. induction s as [|a s IH]; intros [|n]; simpl; try reflexivity; try lia.
  intros H. rewrite IH by lia. reflexivity.
Qed.

(** The path of the wiki URL of a plain id, and its last segment. *)
Lemma wiki_url_path id :
  plain_id id = true ->
  Url.url_path (get_wiki_url_from_id id) = "/unit/" +:+ id /\
  last_item (split "/" ("/unit/" +:+ id)) = id.
Proof.
  intros Hplain. destruct (plain_id_facts id Hplain) as (H1 & H2 & H3 & H4 & H5).
  split.
  - unfold Url.url_path, get_wiki_url_from_id. cbn zeta.
    change (Url.after ":" (Url.remove_unsafe ("https://wiki.warthunder.com/unit/" +:+ id)))
      with ("//wiki.warthunder.com/unit/" +:+ Url.remove_unsafe id).
    rewrite H1.
    change (startswith ("//wiki.warthunder.com/unit/" +:+ id) "//") with true.
    cbv iota.
    change (String.substring 2 (String.length ("//wiki.warthunder.com/unit/" +:+ id))
              ("//wiki.warthunder.com/unit/" +:+ id))
      with (String.substring 0 (S (S (String.length ("wiki.warthunder.com/unit/" +:+ id))))
              ("wiki.warthunder.com/unit/" +:+ id)).
    rewrite substring_all by lia.
    change (Url.skip_netloc ("wiki.warthunder.com/unit/" +:+ id)) with ("/unit/" +:+ id).
    assert (Hno : forall c, has_char c "/unit/" = false -> has_char c id = false ->
                            has_char c ("/unit/" +:+ id) = false).
    { intros c Hp Hi. now rewrite has_char_append, Hp, Hi. }
    rewrite (before_absent "#") by (now apply Hno).
    rewrite (before_absent "?") by (now apply Hno).
    apply cut_params_absent. now apply Hno.
  - unfold last_item.
    change ("/unit/" +:+ id)
      with (String "/" (String "u" (String "n" (String "i" (String "t" (String "/" id)))))).
    cbn [split Ascii.eqb Bool.eqb].
    rewrite (split_without_separator _ _ H2). reflexivity.
Qed.

End WikiUrl.

Lemma scraper_fallback (fetch : string -> Scraper.wiki_reply)
    (id : string) (status : Z) (soup : Scraper.page) :
  plain_id id = true -> id <> "unknown_vehicle" ->
  fetch (get_wiki_url_from_id id) = Scraper.Page status soup ->
  (400 <=? status) && (status <? 600) = false ->
  opt_str_truthy (Scraper.unit_name_div soup) = false ->
  opt_str_truthy (Scraper.header soup) = false ->
  Scraper.get_vehicle_name fetch (get_wiki_url_from_id id)
  = Ok (Some (get_default_display_name id), Scraper.find_rb (Scraper.br_items soup)).
Proof.
  intros Hplain Hid Hfetch Hstatus Hname Hheader.
  destruct (wiki_url_path id Hplain) as [Hpath Hlast].
  unfold Scraper.get_vehicle_name. rewrite Hfetch, Hstatus. cbv zeta.
  assert (H1 : opt_str_truthy
                 match Scraper.unit_name_div soup with
                 | Some text => Some text
                 | None => None
                 end = false) by (now destruct (Scraper.unit_name_div soup)).
  rewrite H1. cbn [negb].
  assert (H2 : opt_str_truthy
                 match Scraper.header soup with
                 | Some text => Some text
                 | None => match Scraper.unit_name_div soup with
                           | Some text => Some text
                           | None => None
                           end
                 end = false) by (now destruct (Scraper.header soup)).
  rewrite H2. cbn [negb]. rewrite Hpath, Hlast.
  unfold get_default_display_name.
  replace (String.eqb id "unknown_vehicle") with false
    by (symmetry; now apply String.eqb_neq).
  reflexivity.
Qed.

(** X19: when a page without a usable name is fetched for the wiki URL of
    an id (other than the sentinel) made of plain characters, the name the
    scraper falls back to is the fallback display name of the engine. *)
Theorem scraper_fallback_is_the_default_name (fetch : string -> Scraper.wiki_reply)
    (id : string) (status : Z) (soup : Scraper.page) :
  plain_id id = true -> id <> "unknown_vehicle" ->
  fetch (get_wiki_url_from_id id) = Scraper.Page status soup ->
  (400 <=? status) && (status <? 600) = false ->
  opt_str_truthy (Scraper.unit_name_div soup) = false ->
  opt_str_truthy (Scraper.header soup) = false ->
  Scraper.get_vehicle_name fetch (get_wiki_url_from_id id)
  = Ok (Some (get_default_display_name id), Scraper.find_rb (Scraper.br_items soup)).
Proof. apply scraper_fallback. Qed.

Lemma scraper_fallback_is_the_default_name_witness :
  Scraper.get_vehicle_name (fun _ => Scraper.Page 200 bare_page)
    (get_wiki_url_from_id "f3d_1")
  = Ok (Some "F3D 1", None).
Proof.
  apply (scraper_fallback_is_the_default_name (fun _ => Scraper.Page 200 bare_page)
           "f3d_1" 200 bare_page); try reflexivity.
  discriminate.
Defined.

(** A fetched page always gives a name that Python takes for true, when the
    fallback name of the id is not empty. *)
Lemma fetched_page_gives_a_name fetch id status soup :
  plain_id id = true -> id <> "unknown_vehicle" ->
  get_default_display_name id <> "" ->
  fetch (get_wiki_url_from_id id) = Scraper.Page status soup ->
  (400 <=? status) && (status <? 600) = false ->
  exists name, PyStr.truthy name = true /\
    Scraper.get_vehicle_name fetch (get_wiki_url_from_id id)
    = Ok (Some name, Scraper.find_rb (Scraper.br_items soup)).
Proof.
  intros Hplain Hid Hdef Hfetch Hstatus.
  destruct (opt_str_truthy (Scraper.unit_name_div soup)) eqn:Hname.
  { destruct (Scraper.unit_name_div soup) as [n|] eqn:Hn; [|discriminate].
    cbn [opt_str_truthy] in Hname. exists n. split; [exact Hname|].
    unfold Scraper.get_vehicle_name. rewrite Hfetch, Hstatus, Hn. cbv zeta.
    cbn [opt_str_truthy]. rewrite Hname. cbn [negb opt_str_truthy].
    rewrite Hname. reflexivity. }
  destruct (opt_str_truthy (Scraper.header soup)) eqn:Hheader.
  { destruct (Scraper.header soup) as [h|] eqn:Hh; [|discriminate].
    cbn [opt_str_truthy] in Hheader. exists h. split; [exact Hheader|].
    unfold Scraper.get_vehicle_name. rewrite Hfetch, Hstatus, Hh. cbv zeta.
    assert (H1 : opt_str_truthy
                   match Scraper.unit_name_div soup with
                   | Some text => Some text
                   | None => None
                   end = false) by (now destruct (Scraper.unit_name_div soup)).
    rewrite H1. cbn [negb opt_str_truthy]. rewrite Hheader. reflexivity. }
  exists (get_default_display_name id). split.
  - now destruct (get_default_display_name id).
  - now apply (scraper_fallback fetch id status soup).
Qed.

(** X20: when the wiki answers the lookup of an id that is not cached with
    a page (any status but 4xx and 5xx), the id is cached on that iteration,
    even if the page has none of the markup the scraper looks for: the id must
    be plain and its fallback name not empty. *)
Theorem fetched_page_is_cached (fe : front_end) (w : world) (e : engine)
    (l : tick_locals) (fetch : string -> Scraper.wiki_reply) (status : Z)
    (soup : Scraper.page) :
  outcome (tick fe w e) = Completed l ->
  raw_vehicle_id l <> "unknown_vehicle" ->
  VEHICLE_NAME_CACHE e !! raw_vehicle_id l = None ->
  plain_id (raw_vehicle_id l) = true ->
  get_default_display_name (raw_vehicle_id l) <> "" ->
  fetch (get_wiki_url_from_id (raw_vehicle_id l)) = Scraper.Page status soup ->
  (400 <=? status) && (status <? 600) = false ->
  Scraper.get_vehicle_name fetch (get_wiki_url_from_id (raw_vehicle_id l))
    = Ok (get_vehicle_name w (get_wiki_url_from_id (raw_vehicle_id l))) ->
  exists name, name <> "" /\
    VEHICLE_NAME_CACHE (after (tick fe w e)) !! raw_vehicle_id l
    = Some (name, detected_br l).
Proof.
  intros Hl Hid Hnone Hplain Hdef Hfetch Hstatus Hagree.
  destruct (fetched_page_gives_a_name fetch _ status soup Hplain Hid Hdef Hfetch Hstatus)
    as (name & Hname & Hscraped).
  rewrite Hscraped in Hagree. injection Hagree as Hagree.
  destruct (tick_completed _ _ _ _ Hl)
    as (sd & ind & md & name' & CACHE & scrapes & HASHES & saves
        & _ & _ & _ & Hres & _ & _ & _ & _ & _ & _ & _ & _ & Hcache & _).
  rewrite (resolve_vehicle_uncached _ _ _ _ Hid Hnone) in Hres. cbn zeta in Hres.
  rewrite <- Hagree, Hname in Hres. injection Hres as _ Hbr <- _.
  exists name. split; [now destruct name|].
  rewrite Hcache, lookup_insert_eq, Hbr. reflexivity.
Qed.

Lemma fetched_page_is_cached_witness :
  exists name, name <> "" /\
    VEHICLE_NAME_CACHE (after (tick Console bare_wiki_world (initial_engine ∅ 0)))
      !! "t-34" = Some (name, "N/A").
Proof.
  assert (Hl : exists l, outcome (tick Console bare_wiki_world (initial_engine ∅ 0))
                         = Completed l /\ raw_vehicle_id l = "t-34" /\
                 detected_br l = "N/A")
    by (vm_compute; eexists; repeat split; reflexivity).
  destruct Hl as (l & Hl & Hraw & Hbr).
  destruct (fetched_page_is_cached Console bare_wiki_world (initial_engine ∅ 0) l
              (fun _ => Scraper.Page 200 bare_page) 200 bare_page Hl)
    as (name & Hname & Hc); rewrite ?Hraw; try reflexivity.
  - discriminate.
  - discriminate.
  - exists name. split; [exact Hname|]. now rewrite Hraw, Hbr in Hc.
Defined.

(** ** The merge of the map tables *)

(** X21: in the merged map table a fingerprint has the value of the local
    table when the local table holds it, and that of the external manifest
    otherwise. *)
Theorem merge_prefers_local_entries (external_hashes local_hashes : option (gmap string string))
    (h : string) :
  merge_map_hashes external_hashes local_hashes !! h =
    match default ∅ local_hashes !! h with
    | Some v => Some v
    | None => default ∅ external_hashes !! h
    end.
Proof.
  unfold merge_map_hashes.
  destruct local_hashes as [local|]; simpl.
  - destruct (Nat.eqb (size local) 0) eqn:Hsize; simpl.
    + apply Nat.eqb_eq, map_size_empty_iff in Hsize. subst local.
      rewrite lookup_empty. destruct external_hashes; reflexivity.
    + rewrite lookup_union. destruct (local !! h) as [v|] eqn:Hv.
      * destruct external_hashes as [manifest|]; simpl.
        -- now destruct (manifest !! h).
        -- now rewrite Hv.
      * destruct external_hashes as [manifest|]; simpl.
        -- now destruct (manifest !! h).
        -- now rewrite Hv, lookup_empty.
  - rewrite lookup_empty. destruct external_hashes; reflexivity.
Qed.

(** ** The headline and the subline in a mission *)

Lemma known_battle_is_specific t :
  known_battle t = true -> PyStr.truthy t = true /\ String.eqb t "mission" = false.
Proof.
  intros H. split.
  - destruct t; [discriminate H|reflexivity].
  - destruct (String.eqb t "mission") eqn:Ht; [|reflexivity].
    apply String.eqb_eq in Ht. subst t. discriminate H.
Qed.

(** The status message in a mission whose type is a string of its own. *)
Lemma get_status_message_specific state_data mission t detected_vehicle map_name
    unfiltered_raw_id :
  dict_truthy state_data = true ->
  map_name <> "Hangar" ->
  is_in_mission (Some mission) = true ->
  mission !! "type" = Some (JStr t) ->
  PyStr.truthy t = true -> String.eqb t "mission" = false ->
  get_status_message state_data (Some mission) detected_vehicle map_name unfiltered_raw_id =
  let action_text :=
    if PyStr.contains "tankmodels/" unfiltered_raw_id
    then "Driving a " +:+ detected_vehicle
    else if PyStr.contains "shipmodels/" unfiltered_raw_id
            || PyStr.contains "boat/" unfiltered_raw_id
    then "Commanding the " +:+ detected_vehicle
    else "Piloting the " +:+ detected_vehicle in
  Ok (if PyStr.contains "ground_battle" t || PyStr.contains "ground_match" t
      then ("In Ground Battle on " +:+ map_name, action_text)
      else if PyStr.contains "air_battle" t || PyStr.contains "air_match" t
      then ("In Air Battle on " +:+ map_name, action_text)
      else if PyStr.contains "naval_battle" t
      then ("In Naval Battle on " +:+ map_name, action_text)
      else if PyStr.contains "Custom Battle" t
      then ("In Custom Battle on " +:+ map_name, action_text)
      else ("In Battle: " +:+ PyStr.title (PyStr.replace "_" " " t),
            "Map: " +:+ map_name)).
Proof.
  intros Hstate Hmap Hin Htype Ht Hm.
  unfold get_status_message, dict_get. rewrite Hstate, Hin, Htype.
  replace (String.eqb map_name "Hangar") with false
    by (symmetry; now apply String.eqb_neq).
  cbn [negb bind opt_truthy truthy eq_str]. rewrite Ht, Hm. cbn [negb orb].
  cbv zeta. cbn [py_in bind].
  destruct (PyStr.contains "ground_battle" t); [reflexivity|]. cbn [bind orb].
  destruct (PyStr.contains "ground_match" t); [reflexivity|]. cbn [bind orb].
  destruct (PyStr.contains "air_battle" t); [reflexivity|]. cbn [bind orb].
  destruct (PyStr.contains "air_match" t); [reflexivity|]. cbn [bind orb].
  destruct (PyStr.contains "naval_battle" t); [reflexivity|]. cbn [bind].
  destruct (PyStr.contains "Custom Battle" t); reflexivity.
Qed.

(** X22: in a mission that reports a type of its own (a string other than
    'mission'), outside the hangar, the headline does not depend on the
    vehicle: neither on its name nor on its id. *)
Theorem headline_follows_the_mission_type (state_data : option dict) (mission : dict)
    (t map_name vehicle1 id1 vehicle2 id2 : string) :
  dict_truthy state_data = true ->
  map_name <> "Hangar" ->
  is_in_mission (Some mission) = true ->
  mission !! "type" = Some (JStr t) ->
  t <> "" -> t <> "mission" ->
  exists headline subline1 subline2,
    get_status_message state_data (Some mission) vehicle1 map_name id1
      = Ok (headline, subline1) /\
    get_status_message state_data (Some mission) vehicle2 map_name id2
      = Ok (headline, subline2).
Proof.
  intros Hstate Hmap Hin Htype Hne Hm.
  assert (Ht : PyStr.truthy t = true) by (now destruct t).
  assert (Hm' : String.eqb t "mission" = false) by (now apply String.eqb_neq).
  rewrite !(get_status_message_specific _ _ t _ _ _ Hstate Hmap Hin Htype Ht Hm').
  cbv zeta.
  destruct (PyStr.contains "ground_battle" t || PyStr.contains "ground_match" t);
    [do 3 eexists; split; reflexivity|].
  destruct (PyStr.contains "air_battle" t || PyStr.contains "air_match" t);
    [do 3 eexists; split; reflexivity|].
  destruct (PyStr.contains "naval_battle" t); [do 3 eexists; split; reflexivity|].
  destruct (PyStr.contains "Custom Battle" t); do 3 eexists; split; reflexivity.
Qed.

Lemma headline_follows_the_mission_type_witness :
  exists headline subline1 subline2,
    get_status_message (Some t34_state) (Some (<["type" := JStr "air_battle"]> running))
      "T-34" "Abandoned Town" "tankmodels/t-34" = Ok (headline, subline1) /\
    get_status_message (Some t34_state) (Some (<["type" := JStr "air_battle"]> running))
      "F3D-1" "Abandoned Town" "f3d_1" = Ok (headline, subline2).
Proof.
  apply (headline_follows_the_mission_type (Some t34_state)
           (<["type" := JStr "air_battle"]> running) "air_battle");
    try reflexivity; discriminate.
Defined.

(** In a mission of a known battle type the subline is the action of the
    vehicle. *)
Lemma known_battle_subline state_data mission t detected_vehicle map_name
    unfiltered_raw_id :
  dict_truthy state_data = true ->
  map_name <> "Hangar" ->
  is_in_mission (Some mission) = true ->
  mission !! "type" = Some (JStr t) ->
  known_battle t = true ->
  exists headline,
    get_status_message state_data (Some mission) detected_vehicle map_name
      unfiltered_raw_id =
    Ok (headline,
        if PyStr.contains "tankmodels/" unfiltered_raw_id
        then "Driving a " +:+ detected_vehicle
        else if PyStr.contains "shipmodels/" unfiltered_raw_id
                || PyStr.contains "boat/" unfiltered_raw_id
        then "Commanding the " +:+ detected_vehicle
        else "Piloting the " +:+ detected_vehicle).
Proof.
  intros Hstate Hmap Hin Htype Hk.
  destruct (known_battle_is_specific _ Hk) as [Ht Hm].
  rewrite (get_status_message_specific _ _ t _ _ _ Hstate Hmap Hin Htype Ht Hm).
  cbv zeta. unfold known_battle in Hk.
  destruct (PyStr.contains "ground_battle" t); [eexists; reflexivity|].
  destruct (PyStr.contains "ground_match" t); [eexists; reflexivity|].
  destruct (PyStr.contains "air_battle" t); [eexists; reflexivity|].
  destruct (PyStr.contains "air_match" t); [eexists; reflexivity|].
  destruct (PyStr.contains "naval_battle" t); [eexists; reflexivity|].
  destruct (PyStr.contains "Custom Battle" t); [eexists; reflexivity|].
  discriminate Hk.
Qed.

(** X23: in a mission of a known battle type, outside the hangar, the
    subline is the action of the vehicle: "Driving a", "Commanding the" or
    "Piloting the", by the kind of the vehicle id, followed by the vehicle's
    name. It does not depend on which battle type the mission reports, nor on
    the map. *)
Theorem subline_follows_the_vehicle (state_data : option dict) (mission1 mission2 : dict)
    (t1 t2 map1 map2 detected_vehicle unfiltered_raw_id : string) :
  dict_truthy state_data = true ->
  map1 <> "Hangar" -> map2 <> "Hangar" ->
  is_in_mission (Some mission1) = true -> is_in_mission (Some mission2) = true ->
  mission1 !! "type" = Some (JStr t1) -> mission2 !! "type" = Some (JStr t2) ->
  known_battle t1 = true -> known_battle t2 = true ->
  let subline :=
    if PyStr.contains "tankmodels/" unfiltered_raw_id
    then "Driving a " +:+ detected_vehicle
    else if PyStr.contains "shipmodels/" unfiltered_raw_id
            || PyStr.contains "boat/" unfiltered_raw_id
    then "Commanding the " +:+ detected_vehicle
    else "Piloting the " +:+ detected_vehicle in
  exists headline1 headline2,
    get_status_message state_data (Some mission1) detected_vehicle map1 unfiltered_raw_id
      = Ok (headline1, subline) /\
    get_status_message state_data (Some mission2) detected_vehicle map2 unfiltered_raw_id
      = Ok (headline2, subline).
Proof.
  intros Hstate Hmap1 Hmap2 Hin1 Hin2 Htype1 Htype2 Hk1 Hk2 subline.
  destruct (known_battle_subline state_data mission1 t1 detected_vehicle map1
              unfiltered_raw_id Hstate Hmap1 Hin1 Htype1 Hk1) as [h1 H1].
  destruct (known_battle_subline state_data mission2 t2 detected_vehicle map2
              unfiltered_raw_id Hstate Hmap2 Hin2 Htype2 Hk2) as [h2 H2].
  exists h1, h2. split; [exact H1|exact H2].
Qed.

Lemma subline_follows_the_vehicle_witness :
  exists headline1 headline2,
    get_status_message (Some t34_state) (Some (<["type" := JStr "air_battle"]> running))
      "T-34" "Abandoned Town" "tankmodels/t-34" = Ok (headline1, "Driving a T-34") /\
    get_status_message (Some t34_state) (Some (<["type" := JStr "naval_battle"]> running))
      "T-34" "Port" "tankmodels/t-34" = Ok (headline2, "Driving a T-34").
Proof.
  refine (subline_follows_the_vehicle (Some t34_state)
            (<["type" := JStr "air_battle"]> running)
            (<["type" := JStr "naval_battle"]> running) "air_battle" "naval_battle"
            "Abandoned Town" "Port" "T-34" "tankmodels/t-34" _ _ _ _ _ _ _ _ _);
    try reflexivity; discriminate.
Defined.

(** ** The map value of an iteration *)

Lemma detect_map_is_a_lookup MAP_HASHES sha256_hash value MAP_HASHES' evs :
  detect_map MAP_HASHES sha256_hash = (value, MAP_HASHES', evs) ->
  value = lookup_map_name MAP_HASHES' sha256_hash.
Proof.
  intros H. destruct sha256_hash as [h|]; [|now injection H as <- <- _].
  destruct (decide (h = "")) as [->|Hh]; [now injection H as <- <- _|].
  destruct (MAP_HASHES !! h) as [v|] eqn:Hv.
  - rewrite (detect_map_known _ _ _ Hv) in H. now injection H as <- <- _.
  - rewrite (detect_map_unknown _ _ Hh Hv) in H. injection H as <- <- _.
    unfold lookup_map_name. replace (PyStr.truthy h) with true by (now destruct h).
    now rewrite lookup_insert_eq.
Qed.

(** X24: the map value of a finished iteration is what [lookup_map_name]
    gives for the fingerprint in the table as the iteration leaves it; the
    diagnostic for a fingerprint that is not in the table is therefore never
    the map value, unless the table itself holds that string. *)
Theorem map_value_is_a_lookup_in_the_new_table (fe : front_end) (w : world) (e : engine)
    (l : tick_locals) :
  outcome (tick fe w e) = Completed l ->
  current_map_value l
  = lookup_map_name (GLOBAL_MAP_HASHES (after (tick fe w e))) (get_map_image_hash w) /\
  (forall h, get_map_image_hash w = Some h ->
     current_map_value l <> "Unknown Map (Hash: " +:+ PyStr.take 8 h +:+ "...)" \/
     GLOBAL_MAP_HASHES e !! h = Some (current_map_value l)).
Proof.
  intros Hl.
  destruct (tick_completed _ _ _ _ Hl)
    as (sd & ind & md & name & CACHE & scrapes & HASHES & saves
        & _ & _ & _ & _ & _ & _ & Hdet & _ & _ & _ & _ & _ & _ & -> & _).
  split; [now apply (detect_map_is_a_lookup _ _ _ _ _ Hdet)|].
  intros h Hw. rewrite Hw in Hdet.
  destruct (decide (h = "")) as [->|Hh].
  { left. injection Hdet as <- _ _. discriminate. }
  destruct (GLOBAL_MAP_HASHES e !! h) as [v|] eqn:Hv.
  - rewrite (detect_map_known _ _ _ Hv) in Hdet. injection Hdet as Hval _ _.
    unfold lookup_map_name in Hval. rewrite Hv in Hval.
    replace (PyStr.truthy h) with true in Hval by (now destruct h).
    destruct (negb (String.eqb v "")) eqn:Hempty.
    + right. now rewrite <- Hval.
    + left. rewrite <- Hval. discriminate.
  - left. rewrite (detect_map_unknown _ _ Hh Hv) in Hdet. injection Hdet as <- _ _.
    discriminate.
Qed.

Lemma map_value_is_a_lookup_in_the_new_table_witness :
  exists l, outcome (tick Console new_map_world (initial_engine ∅ 0)) = Completed l /\
    current_map_value l
    = lookup_map_name
        (GLOBAL_MAP_HASHES (after (tick Console new_map_world (initial_engine ∅ 0))))
        (Some "5f2b").
Proof.
  assert (Hl : exists l, outcome (tick Console new_map_world (initial_engine ∅ 0))
                         = Completed l)
    by (vm_compute; eexists; reflexivity).
  destruct Hl as [l Hl]. exists l. split; [exact Hl|].
  exact (proj1 (map_value_is_a_lookup_in_the_new_table Console new_map_world
                  (initial_engine ∅ 0) l Hl)).
Defined.
